(** * Change-impact pipeline: detector, enhancer, validator

    A shallow embedding of the three pipeline scripts

    - [scripts/pre-ci/change-detection.py]       (the Change Detector),
    - [scripts/prepare-change-meta.py]           (the Metadata Enhancer),
    - [scripts/pre-ci/validate-change-impact.py] (the Impact Validator),

    together with the properties of their decision logic.

    Documents are JSON values.  A Python [dict] is an association list in
    insertion order whose update replaces the value of an existing key in
    place and appends a new key at the end.  Python operations that can raise
    ([len] of a number, [.get] on a list, ...) return [option]; [None] stands
    for the raised exception. *)

From Stdlib Require Import List String Ascii ZArith Bool Arith Lia DecimalString.
Import ListNotations.
Open Scope string_scope.
Open Scope list_scope.

(** ** Python values *)

Module Py.

(** The values [json.load] and [yaml.safe_load] produce.  Numbers are the
    integers; floating point numbers are outside the model.  A string is a
    sequence of one-byte characters, so [len] counts bytes. *)
#[warnings="-register-all"] Inductive json : Type :=
| JNull : json
| JBool : bool -> json
| JNum : Z -> json
| JStr : string -> json
| JArr : list json -> json
| JObj : list (string * json) -> json.

Definition dict (V : Type) : Type := list (string * V).

Section Dict.
Context {V : Type}.

(** [d.get(k)] on a dict, [None] when the key is absent. *)
Fixpoint dict_get (k : string) (d : dict V) : option V :=
  match d with
  | [] => None
  | (k', v) :: d' => if String.eqb k k' then Some v else dict_get k d'
  end.

(** [k in d]. *)
Definition dict_mem (k : string) (d : dict V) : bool :=
  match dict_get k d with Some _ => true | None => false end.

(** [d.get(k, default)]. *)
Definition dict_get_default (k : string) (default : V) (d : dict V) : V :=
  match dict_get k d with Some v => v | None => default end.

(** [d[k] = v]: an existing key keeps its position, a new key goes last. *)
Fixpoint dict_set (k : string) (v : V) (d : dict V) : dict V :=
  match d with
  | [] => [(k, v)]
  | (k', v') :: d' =>
      if String.eqb k k' then (k', v) :: d' else (k', v') :: dict_set k v d'
  end.

Definition keys (d : dict V) : list string := map fst d.
Definition values (d : dict V) : list V := map snd d.
End Dict.

(** Python truthiness, the test behind [if x:], [not x] and [any]. *)
Definition truthy (v : json) : bool :=
match v with
| JNull => false
| JBool b => b
| JNum z => negb (Z.eqb z 0)
| JStr s => negb (String.eqb s "")
| JArr l => match l with [] => false | _ => true end
| JObj d => match d with [] => false | _ => true end
end.

(** The exception monad: [None] is a raised exception. *)
Definition exc (A : Type) : Type := option A.
Definition ret {A : Type} (a : A) : exc A := Some a.
Definition raise {A : Type} : exc A := None.
Definition bind {A B : Type} (m : exc A) (k : A -> exc B) : exc B :=
match m with Some a => k a | None => None end.

Fixpoint string_chars (s : string) : list string :=
match s with
| EmptyString => []
| String c s' => String c EmptyString :: string_chars s'
end.

(** [needle in hay] on strings: substring test. *)
Fixpoint contains (needle hay : string) : bool :=
if String.prefix needle hay then true
else match hay with
     | EmptyString => false
     | String _ hay' => contains needle hay'
     end.

(** [v == s] for a string literal [s]. *)
Definition eq_str (s : string) (v : json) : bool :=
match v with JStr s' => String.eqb s' s | _ => false end.

(** [len(v)]: defined on strings, lists and dicts, a [TypeError] otherwise. *)
Definition py_len (v : json) : exc nat :=
match v with
| JStr s => ret (String.length s)
| JArr l => ret (List.length l)
| JObj d => ret (List.length d)
| _ => raise
end.

(** [for x in v]: the elements of a list, the keys of a dict, the characters
  of a string; a [TypeError] otherwise. *)
Definition py_iter (v : json) : exc (list json) :=
match v with
| JStr s => ret (map JStr (string_chars s))
| JArr l => ret l
| JObj d => ret (map JStr (keys d))
| _ => raise
end.

(** [v.values()]: only dicts have the method. *)
Definition py_values (v : json) : exc (list json) :=
match v with JObj d => ret (values d) | _ => raise end.

(** [v.items()]: only dicts have the method. *)
Definition py_items (v : json) : exc (dict json) :=
match v with JObj d => ret d | _ => raise end.

(** [v.get(k, default)]: only dicts have the method. *)
Definition py_get (v : json) (k : string) (default : json) : exc json :=
match v with JObj d => ret (dict_get_default k default d) | _ => raise end.

(** [k in v] for a string literal [k]: key test on a dict, membership on a
  list, substring on a string, a [TypeError] otherwise. *)
Definition py_in (k : string) (v : json) : exc bool :=
match v with
| JObj d => ret (dict_mem k d)
| JArr l => ret (existsb (eq_str k) l)
| JStr s => ret (contains k s)
| _ => raise
end.

(** [any(l)]. *)
Definition any (l : list json) : bool := existsb truthy l.

(** [str(n)] for a length. *)
Definition str_nat (n : nat) : string := NilEmpty.string_of_uint (Nat.to_uint n).

(** A set of strings, kept as a duplicate-free list in insertion order.
  Python leaves the iteration order of a [set] open; this is one of the
  orders [list(s)] can produce, and only membership is relied upon. *)
Definition set_add (x : string) (s : list string) : list string :=
if existsb (String.eqb x) s then s else s ++ [x].

(** [s.update(xs)]. *)
Definition set_update (xs s : list string) : list string :=
fold_left (fun acc x => set_add x acc) xs s.

End Py.
Import Py.

Notation "x <- c1 ;; c2" := (bind c1 (fun x => c2))
(at level 61, c1 at next level, right associativity).

(** ** The Impact Validator ([validate-change-impact.py]) *)

Module Validator.

Section Validate.
(** [format_value v] is the text an f-string substitutes for [{v}], that is
    Python's built-in [str] applied to a loaded JSON value. *)
Variable format_value : json -> string.

Definition msg_missing_affected_resources : string :=
  "Metadata missing 'affected_resources' field".
Definition msg_missing_deployment_checklist : string :=
  "Metadata missing 'deployment_checklist' field".

Definition msg_no_affected_resources (n : nat) : string :=
  "Files changed (" ++ str_nat n ++ ") but no affected resources identified. "
  ++ "All changes may have been excluded.".

Definition msg_checklist_empty (n : nat) : string :=
  "Affected resources identified (" ++ str_nat n
  ++ ") but deployment checklist is empty. "
  ++ "This indicates a configuration error in change-detection-config.yaml".

Definition msg_no_conditions : string :=
  "Enhanced metadata but no CloudFormation conditions generated. "
  ++ "Template may not conditionally deploy resources.".

Definition msg_resource_missing (field : string) (file : json) : string :=
  "Resource missing '" ++ field ++ "': " ++ format_value file.

Definition msg_critical (n : nat) : string :=
  "Found " ++ str_nat n ++ " CRITICAL resources but no required actions defined. "
  ++ "Build, test, or deployment steps may be missing.".

(** Check 1: the required fields. *)
Definition check_structure (metadata : dict json) (errors : list string)
  : list string :=
  let errors :=
    if negb (dict_mem "affected_resources" metadata)
    then errors ++ [msg_missing_affected_resources] else errors in
  let errors :=
    if negb (dict_mem "deployment_checklist" metadata)
    then errors ++ [msg_missing_deployment_checklist] else errors in
  errors.

(** [x and len(x) > 0]. *)
Definition nonempty_and_len (x : json) : exc bool :=
  if truthy x then n <- py_len x ;; ret (Nat.ltb 0 n) else ret false.

(** [not x or len(x) == 0]. *)
Definition falsy_or_len0 (x : json) : exc bool :=
  if negb (truthy x) then ret true else n <- py_len x ;; ret (Nat.eqb n 0).

(** Check 2: files changed but nothing was classified. *)
Definition check_coverage (changed_files affected_resources : json)
           (warnings : list string) : exc (list string) :=
  c <- nonempty_and_len changed_files ;;
  if c then
    e <- falsy_or_len0 affected_resources ;;
    if e then
      n <- py_len changed_files ;;
      ret (warnings ++ [msg_no_affected_resources n])
    else ret warnings
  else ret warnings.

(** Check 3: resources were classified but no stack is to be deployed. *)
Definition check_checklist (affected_resources deployment_checklist : json)
           (errors : list string) : exc (list string) :=
  c <- nonempty_and_len affected_resources ;;
  if c then
    vs <- py_values deployment_checklist ;;
    if negb (any vs) then
      n <- py_len affected_resources ;;
      ret (errors ++ [msg_checklist_empty n])
    else ret errors
  else ret errors.

(** Check 4: enhanced metadata without conditions. *)
Definition check_enhanced (metadata : dict json) (affected_resources : json)
           (warnings : list string) : list string :=
  if truthy (dict_get_default "enhanced" JNull metadata) then
    let cf_conditions :=
      dict_get_default "cloudformation_conditions" (JObj []) metadata in
    if negb (truthy cf_conditions) && truthy affected_resources
    then warnings ++ [msg_no_conditions] else warnings
  else warnings.

(** The body of the loop of check 5, for one resource. *)
Definition check_resource (resource : json) (warnings : list string)
  : exc (list string) :=
  has_type <- py_in "resource_type" resource ;;
  warnings <-
    (if negb has_type then
       f <- py_get resource "file" (JStr "unknown") ;;
       ret (warnings ++ [msg_resource_missing "resource_type" f])
     else ret warnings) ;;
  has_level <- py_in "impact_level" resource ;;
  if negb has_level then
    f <- py_get resource "file" (JStr "unknown") ;;
    ret (warnings ++ [msg_resource_missing "impact_level" f])
  else ret warnings.

(** Check 5: the loop over the resources. *)
Fixpoint check_resources (resources : list json) (warnings : list string)
  : exc (list string) :=
  match resources with
  | [] => ret warnings
  | r :: rs => w <- check_resource r warnings ;; check_resources rs w
  end.

(** [[r for r in resources if r.get("impact_level") == "CRITICAL"]]. *)
Fixpoint critical_resources (resources : list json) : exc (list json) :=
  match resources with
  | [] => ret []
  | r :: rs =>
      level <- py_get r "impact_level" JNull ;;
      rest <- critical_resources rs ;;
      ret (if eq_str "CRITICAL" level then r :: rest else rest)
  end.

(** Check 6: critical resources need required actions. *)
Definition check_critical (metadata : dict json) (resources : list json)
           (errors : list string) : exc (list string) :=
  let required_actions :=
    dict_get_default "required_actions" (JArr []) metadata in
  critical <- critical_resources resources ;;
  if negb (Nat.eqb (List.length critical) 0) && negb (truthy required_actions)
  then ret (errors ++ [msg_critical (List.length critical)])
  else ret errors.

(** [validate_change_impact], on the loaded metadata document. *)
Definition validate_change_impact (metadata : dict json) (strict : bool)
  : exc (bool * list string * list string) :=
  let errors := check_structure metadata [] in
  let warnings := [] in
  if negb (Nat.eqb (List.length errors) 0) then ret (false, errors, warnings)
  else
    let affected_resources :=
      dict_get_default "affected_resources" (JArr []) metadata in
    let deployment_checklist :=
      dict_get_default "deployment_checklist" (JObj []) metadata in
    let changed_files := dict_get_default "changed_files" (JArr []) metadata in
    warnings <- check_coverage changed_files affected_resources warnings ;;
    errors <- check_checklist affected_resources deployment_checklist errors ;;
    let warnings := check_enhanced metadata affected_resources warnings in
    resources <- py_iter affected_resources ;;
    warnings <- check_resources resources warnings ;;
    resources' <- py_iter affected_resources ;;
    errors <- check_critical metadata resources' errors ;;
    let is_valid :=
      Nat.eqb (List.length errors) 0
      && (negb strict || Nat.eqb (List.length warnings) 0) in
    ret (is_valid, errors, warnings).

(** The texts a warning can have. *)
Inductive warning_text : string -> Prop :=
| W_coverage n : warning_text (msg_no_affected_resources n)
| W_conditions : warning_text msg_no_conditions
| W_resource field file : warning_text (msg_resource_missing field file).
End Validate.

Definition is_dict (v : json) : bool :=
match v with JObj _ => true | _ => false end.

(** A document of the expected types: [affected_resources] is a list of
  dicts, [deployment_checklist] a dict and [changed_files], when present,
  a list. *)
Definition well_typed (metadata : dict json) : bool :=
match dict_get "affected_resources" metadata,
      dict_get "deployment_checklist" metadata,
      dict_get_default "changed_files" (JArr []) metadata with
| Some (JArr resources), Some (JObj _), JArr _ => forallb is_dict resources
| _, _, _ => false
end.

End Validator.

(** ** The Change Detector ([change-detection.py]) *)

Module Detector.

(** One entry of [resourceMappings].  The script reads every field with
  [.get]: [patterns] and [required_actions] default to the empty list, the
  other fields to [None]. *)
Record mapping_config : Type := {
patterns : list string;
resource_type : option string;
impact_level : option string;
target_stack : option string;
description : option string;
required_actions : list string
}.

(** The loaded configuration, as far as the detector reads it:
  [exclusions.patterns], [resourceMappings] and [deploymentChecklist]
  (each empty when absent). *)
Record config : Type := {
exclusion_patterns : list string;
resource_mappings : dict mapping_config;
deployment_checklist_config : dict json
}.

(** The [change_metadata] dict the script builds and updates. *)
Record change_metadata : Type := {
cm_config_path : string;
cm_base_commit : string;
cm_head_commit : string;
cm_changed_files : list string;
cm_affected_resources : list json;
cm_affected_mappings : list string;
cm_deployment_checklist : dict bool;
cm_required_actions : list string
}.

(** [file_path.replace("\\", "/")]. *)
Fixpoint normalize_path (file_path : string) : string :=
match file_path with
| EmptyString => EmptyString
| String c rest =>
    String (if Ascii.eqb c "\"%char then "/"%char else c) (normalize_path rest)
end.

(** [mapping_config.get(field)] written to the document: [None] is [null]. *)
Definition opt_str (o : option string) : json :=
match o with Some s => JStr s | None => JNull end.

(** The dict appended to [affected_resources] for one match. *)
Definition resource_entry (file_path mapping_key : string) (mc : mapping_config)
: json :=
JObj [("file", JStr file_path);
      ("mapping", JStr mapping_key);
      ("resource_type", opt_str (resource_type mc));
      ("impact_level", opt_str (impact_level mc));
      ("target_stack", opt_str (target_stack mc));
      ("description", opt_str (description mc))].

(** The entry names the file [file_path]: [e.get("file") == file_path]. *)
Definition entry_file (file_path : string) (e : json) : bool :=
  match py_get e "file" JNull with
  | Some file => eq_str file_path file
  | None => false
  end.

(** The entry was made for the pair of [file_path] and [mapping_key]. *)
Definition entry_names (file_path mapping_key : string) (e : json) : bool :=
  entry_file file_path e
  && match py_get e "mapping" JNull with
     | Some mapping => eq_str mapping_key mapping
     | None => false
     end.

(** [for stack_key in checklist.keys(): checklist[stack_key] = True]. *)
Definition set_all_true (checklist : dict bool) : dict bool :=
fold_left (fun d stack_key => dict_set stack_key true d) (keys checklist)
          checklist.

(** The [if target_stack == 'all': ... elif target_stack: ...] update. *)
Definition update_checklist (target : option string) (checklist : dict bool)
: dict bool :=
match target with
| Some t =>
    if String.eqb t "all" then set_all_true checklist
    else if negb (String.eqb t "") then dict_set t true checklist
    else checklist
| None => checklist
end.

(** The body of the inner loop, for one [(mapping_key, mapping_config)]. *)
Definition record_match (file_path : string) (md : change_metadata)
         (m : string * mapping_config) : change_metadata :=
let (mapping_key, mc) := m in
{| cm_config_path := cm_config_path md;
   cm_base_commit := cm_base_commit md;
   cm_head_commit := cm_head_commit md;
   cm_changed_files := cm_changed_files md;
   cm_affected_resources :=
     cm_affected_resources md ++ [resource_entry file_path mapping_key mc];
   cm_affected_mappings := set_add mapping_key (cm_affected_mappings md);
   cm_deployment_checklist :=
     update_checklist (target_stack mc) (cm_deployment_checklist md);
   cm_required_actions :=
     set_update (required_actions mc) (cm_required_actions md) |}.

(** [record_match] on a (file, mapping) pair. *)
Definition apply_pair (md : change_metadata)
         (p : string * (string * mapping_config)) : change_metadata :=
record_match (fst p) md (snd p).

(** The mapping classifies its files as critical:
    [impact_level == "CRITICAL"]. *)
Definition is_critical (mc : mapping_config) : bool :=
  match impact_level mc with
  | Some level => String.eqb level "CRITICAL"
  | None => false
  end.

(** [{key: False for key in deployment_checklist_config.keys()}]. *)
Definition initial_checklist (cfg : config) : dict bool :=
fold_left (fun d key => dict_set key false d)
          (keys (deployment_checklist_config cfg)) [].

Definition initial_metadata (config_path base_commit head_commit : string)
         (cfg : config) (changed : list string) : change_metadata :=
{| cm_config_path := config_path;
   cm_base_commit := base_commit;
   cm_head_commit := head_commit;
   cm_changed_files := changed;
   cm_affected_resources := [];
   cm_affected_mappings := [];
   cm_deployment_checklist := initial_checklist cfg;
   cm_required_actions := [] |}.

(** The document [json.dump] writes: the dict with its keys in the order of
  the literal, the two sets as lists, the checklist flags as booleans. *)
Definition to_document (md : change_metadata) : dict json :=
[("change_detection_config", JStr (cm_config_path md));
 ("base_commit", JStr (cm_base_commit md));
 ("head_commit", JStr (cm_head_commit md));
 ("changed_files_count", JNum (Z.of_nat (List.length (cm_changed_files md))));
 ("changed_files", JArr (map JStr (cm_changed_files md)));
 ("affected_resources", JArr (cm_affected_resources md));
 ("affected_mappings", JArr (map JStr (cm_affected_mappings md)));
 ("deployment_checklist",
  JObj (map (fun kv => (fst kv, JBool (snd kv))) (cm_deployment_checklist md)));
 ("required_actions", JArr (map JStr (cm_required_actions md)));
 ("cloudformation_conditions", JObj [])].

Section Detect.
(** [fnmatch path pattern] is [fnmatch.fnmatch] of the Python library. *)
Variable fnmatch : string -> string -> bool.

(** The inner [for pattern in patterns] loop: stop at the first match. *)
Fixpoint any_pattern_matches (path : string) (pats : list string) : bool :=
  match pats with
  | [] => false
  | pattern :: rest =>
      if fnmatch path pattern then true else any_pattern_matches path rest
  end.

Definition is_excluded (file_path : string) (exclusions : list string)
  : bool :=
  any_pattern_matches (normalize_path file_path) exclusions.

Fixpoint match_file_to_mapping (file_path : string)
         (mappings : dict mapping_config) : list (string * mapping_config) :=
  match mappings with
  | [] => []
  | (mapping_key, mc) :: rest =>
      if any_pattern_matches (normalize_path file_path) (patterns mc)
      then (mapping_key, mc) :: match_file_to_mapping file_path rest
      else match_file_to_mapping file_path rest
  end.

(** The body of the outer loop, for one changed file. *)
Definition process_file (cfg : config) (md : change_metadata)
           (file_path : string) : change_metadata :=
  if is_excluded file_path (exclusion_patterns cfg) then md
  else fold_left (record_match file_path)
                 (match_file_to_mapping file_path (resource_mappings cfg)) md.

(** [run_change_detection], given the loaded configuration and the list of
    changed files the diff returned. *)
Definition run_change_detection (config_path base_commit head_commit : string)
           (cfg : config) (changed : list string) : change_metadata :=
  fold_left (process_file cfg) changed
            (initial_metadata config_path base_commit head_commit cfg changed).

(** The (file, mapping) pairs the two loops visit, in the order they visit
    them: for every file that is not excluded, its matching mappings. *)
Definition matched_pairs (cfg : config) (changed : list string)
  : list (string * (string * mapping_config)) :=
  flat_map
    (fun file_path =>
       if is_excluded file_path (exclusion_patterns cfg) then []
       else map (fun m => (file_path, m))
                (match_file_to_mapping file_path (resource_mappings cfg)))
    changed.
End Detect.

End Detector.

(** ** The Metadata Enhancer ([prepare-change-meta.py]) *)

Module Enhancer.

(** One round of the loop over [deployment_checklist.items()]. *)
Definition add_condition (condition_mapping : dict string)
         (conditions : dict json) (item : string * json) : dict json :=
let (checklist_key, should_deploy) := item in
match dict_get checklist_key condition_mapping with
| Some cf_condition =>
    if negb (String.eqb cf_condition "")
    then dict_set cf_condition should_deploy conditions
    else conditions
| None => conditions
end.

(** The checklist item [item] yields the condition [name]: the mapping has
  the non-empty entry [name] for its key. *)
Definition yields (condition_mapping : dict string) (name : string)
         (item : string * json) : Prop :=
dict_get (fst item) condition_mapping = Some name /\ name <> "".

(** The composite condition for the [application] key. *)
Definition add_composite (deployment_checklist conditions : dict json)
: dict json :=
if dict_mem "application" deployment_checklist
then dict_set "DeployApplicationStack"
              (dict_get_default "application" (JBool false) deployment_checklist)
              conditions
else conditions.

(** The [cloudformation_conditions] dict, from the checklist dict. *)
Definition build_conditions (condition_mapping : dict string)
         (deployment_checklist : dict json) : dict json :=
add_composite deployment_checklist
  (fold_left (add_condition condition_mapping) deployment_checklist []).

(** [prepare_change_metadata], given the loaded metadata document and the
  loaded condition mapping (a [Dict[str, str]]). *)
Definition prepare_change_metadata (metadata : dict json)
         (condition_mapping : dict string) : exc (dict json) :=
let deployment_checklist :=
  dict_get_default "deployment_checklist" (JObj []) metadata in
items <- py_items deployment_checklist ;;
let cloudformation_conditions := build_conditions condition_mapping items in
let enhanced := metadata in
let enhanced :=
  dict_set "cloudformation_conditions" (JObj cloudformation_conditions)
           enhanced in
let enhanced := dict_set "metadata_version" (JStr "2.0") enhanced in
let enhanced := dict_set "enhanced" (JBool true) enhanced in
n <- py_len (dict_get_default "affected_resources" (JArr []) metadata) ;;
let has_affected_resources := Nat.ltb 0 n in
let enhanced :=
  dict_set "has_affected_resources" (JBool has_affected_resources) enhanced in
vs <- py_values deployment_checklist ;;
let has_deployments := any vs in
let enhanced := dict_set "has_deployments" (JBool has_deployments) enhanced in
let enhanced :=
  dict_set "is_valid" (JBool (has_affected_resources && has_deployments))
           enhanced in
ret enhanced.

End Enhancer.

(** ** Concrete instances used by the examples *)

Module Instances.

(** Shell-style matching as [fnmatch.fnmatch] performs it on a POSIX system
  (where [os.path.normcase] is the identity): [*] matches any run of
  characters, [?] one character, [[seq]] one character of [seq] and
  [[!seq]] one character outside it; everything else matches itself. *)
Inductive token : Type :=
| TStar : token
| TAny : token
| TLit : ascii -> token
| TClass : bool -> list ascii -> token.

(** The characters up to the first closing bracket, and what follows it. *)
Fixpoint split_at_close (p : list ascii) : option (list ascii * list ascii) :=
match p with
| [] => None
| c :: rest =>
    if Ascii.eqb c "]"%char then Some ([], rest)
    else match split_at_close rest with
         | Some (body, after) => Some (c :: body, after)
         | None => None
         end
end.

(** A bracket expression, read after its opening bracket: a leading [!]
  negates, a closing bracket in first position is an ordinary member. *)
Definition class_of (p : list ascii)
: option (bool * list ascii * list ascii) :=
let (neg, p1) :=
  match p with
  | c :: rest => if Ascii.eqb c "!"%char then (true, rest) else (false, p)
  | [] => (false, p)
  end in
let (first, p2) :=
  match p1 with
  | c :: rest => if Ascii.eqb c "]"%char then ([c], rest) else ([], p1)
  | [] => ([], p1)
  end in
match split_at_close p2 with
| Some (body, after) => Some (neg, first ++ body, after)
| None => None
end.

Fixpoint tokens (fuel : nat) (p : list ascii) : list token :=
match fuel with
| O => []
| S fuel' =>
    match p with
    | [] => []
    | c :: rest =>
        if Ascii.eqb c "*"%char then TStar :: tokens fuel' rest
        else if Ascii.eqb c "?"%char then TAny :: tokens fuel' rest
        else if Ascii.eqb c "["%char then
          match class_of rest with
          | Some (neg, body, after) => TClass neg body :: tokens fuel' after
          | None => TLit c :: tokens fuel' rest
          end
        else TLit c :: tokens fuel' rest
    end
end.

Definition in_range (lo hi c : ascii) : bool :=
(N.leb (N_of_ascii lo) (N_of_ascii c)) && (N.leb (N_of_ascii c) (N_of_ascii hi)).

Fixpoint in_class (c : ascii) (body : list ascii) : bool :=
match body with
| [] => false
| lo :: rest =>
    match rest with
    | dash :: hi :: rest' =>
        if Ascii.eqb dash "-"%char
        then in_range lo hi c || in_class c rest'
        else Ascii.eqb c lo || in_class c rest
    | _ => Ascii.eqb c lo || in_class c rest
    end
end.

Fixpoint match_tokens (ts : list token) (s : list ascii) : bool :=
match ts with
| [] => match s with [] => true | _ => false end
| TStar :: ts' =>
    (fix star (s : list ascii) : bool :=
       match_tokens ts' s
       || match s with [] => false | _ :: s' => star s' end) s
| TAny :: ts' =>
    match s with [] => false | _ :: s' => match_tokens ts' s' end
| TLit c :: ts' =>
    match s with
    | [] => false
    | c' :: s' => Ascii.eqb c c' && match_tokens ts' s'
    end
| TClass neg body :: ts' =>
    match s with
    | [] => false
    | c' :: s' => xorb neg (in_class c' body) && match_tokens ts' s'
    end
end.

Definition fnmatch_posix (path pattern : string) : bool :=
let p := list_ascii_of_string pattern in
match_tokens (tokens (List.length p) p) (list_ascii_of_string path).

(** Python's [str] on the scalar values; the examples format no list or
  dict. *)
Definition format_scalar (v : json) : string :=
match v with
| JNull => "None"
| JBool true => "True"
| JBool false => "False"
| JNum z => NilEmpty.string_of_int (Z.to_int z)
| JStr s => s
| JArr _ => "[...]"
| JObj _ => "{...}"
end.

(** A rule set whose only mapping targets the stack [network], which is not
  a key of its checklist. *)
Definition network_mapping : Detector.mapping_config :=
{| Detector.patterns := ["*.yaml"];
   Detector.resource_type := Some "network";
   Detector.impact_level := Some "HIGH";
   Detector.target_stack := Some "network";
   Detector.description := None;
   Detector.required_actions := ["deploy"] |}.

Definition network_config : Detector.config :=
{| Detector.exclusion_patterns := ["docs/*"];
   Detector.resource_mappings := [("net", network_mapping)];
   Detector.deployment_checklist_config := [("application", JBool false)] |}.

(** Scenario A of the specification: one mapping with target [all]. *)
Definition lambda_mapping : Detector.mapping_config :=
{| Detector.patterns := ["lambda/*.py"];
   Detector.resource_type := Some "lambda";
   Detector.impact_level := Some "CRITICAL";
   Detector.target_stack := Some "all";
   Detector.description := Some "application code";
   Detector.required_actions := ["build"; "deploy"] |}.

Definition lambda_config : Detector.config :=
{| Detector.exclusion_patterns := ["*.md"];
   Detector.resource_mappings := [("app-lambda", lambda_mapping)];
   Detector.deployment_checklist_config :=
     [("application", JBool true); ("network", JBool true)] |}.

(** Scenario B: a changed file, nothing classified. *)
Definition unclassified_metadata : dict json :=
[("changed_files", JArr [JStr "README.md"]);
 ("affected_resources", JArr []);
 ("deployment_checklist", JObj [("application", JBool false)]);
 ("required_actions", JArr [])].

(** Scenario C: a critical resource and no required action. *)
Definition critical_entry : dict json :=
[("file", JStr "lambda/index.py");
 ("mapping", JStr "app-lambda");
 ("resource_type", JStr "lambda");
 ("impact_level", JStr "CRITICAL");
 ("target_stack", JStr "application");
 ("description", JNull)].

Definition critical_metadata : dict json :=
[("changed_files", JArr [JStr "lambda/index.py"]);
 ("affected_resources", JArr [JObj critical_entry]);
 ("deployment_checklist", JObj [("application", JBool true)]);
 ("required_actions", JArr [])].

(** Scenario D: a checklist with the [application] key alone. *)
Definition application_checklist : dict json := [("application", JBool true)].

Definition application_metadata : dict json :=
[("changed_files", JArr [JStr "lambda/index.py"]);
 ("affected_resources", JArr [JObj critical_entry]);
 ("deployment_checklist", JObj application_checklist);
 ("required_actions", JArr [JStr "deploy"])].

(** Two checklist keys mapped to one condition name. *)
Definition shared_name_mapping : dict string :=
  [("network", "Deploy"); ("storage", "Deploy")].

Definition shared_name_metadata : dict json :=
  [("affected_resources", JArr [JObj critical_entry]);
   ("deployment_checklist",
    JObj [("network", JBool true); ("storage", JBool false)])].

(** A condition mapping whose entry for [application] is the empty name. *)
Definition empty_name_mapping : dict string := [("application", "")].

(** A document without [deployment_checklist] whose [affected_resources] is
  a number: every later check would raise on it. *)
Definition truncated_metadata : dict json :=
[("changed_files", JArr [JStr "a.py"]); ("affected_resources", JNum 5)].

End Instances.

(** ** The changed-file list ([get_changed_files] of [change-detection.py]) *)

Module Diff.

(** The text is held as its UTF-8 encoding, one [ascii] per byte.  [byte c n]
    tests that the byte [c] is [n]. *)
Definition byte (c : ascii) (n : nat) : bool := Nat.eqb (nat_of_ascii c) n.

(** The white space [str.strip] removes, by the length of its encoding.
    One byte: tab, line feed, vertical tab, form feed, carriage return
    ([0x09] to [0x0d]), the separators [0x1c] to [0x1f] and the space. *)
Definition space1 (c : ascii) : bool :=
  let n := nat_of_ascii c in
  (Nat.leb 9 n && Nat.leb n 13) || (Nat.leb 28 n && Nat.leb n 31)
  || Nat.eqb n 32.

(** Two bytes: U+0085 ([c2 85]) and U+00A0 ([c2 a0]). *)
Definition space2 (c1 c2 : ascii) : bool :=
  byte c1 194 && (byte c2 133 || byte c2 160).

(** Three bytes: U+1680 ([e1 9a 80]), U+2000 to U+200A ([e2 80 80] to
    [e2 80 8a]), U+2028, U+2029 and U+202F ([e2 80 a8], [e2 80 a9],
    [e2 80 af]), U+205F ([e2 81 9f]) and U+3000 ([e3 80 80]). *)
Definition space3 (c1 c2 c3 : ascii) : bool :=
  (byte c1 225 && byte c2 154 && byte c3 128)
  || (byte c1 226 && byte c2 128
      && ((Nat.leb 128 (nat_of_ascii c3) && Nat.leb (nat_of_ascii c3) 138)
          || byte c3 168 || byte c3 169 || byte c3 175))
  || (byte c1 226 && byte c2 129 && byte c3 159)
  || (byte c1 227 && byte c2 128 && byte c3 128).

(** What follows the white-space character [s] starts with, if it starts
    with one. *)
Definition space_prefix (s : string) : option string :=
  match s with
  | EmptyString => None
  | String c1 r1 =>
      if space1 c1 then Some r1
      else match r1 with
           | EmptyString => None
           | String c2 r2 =>
               if space2 c1 c2 then Some r2
               else match r2 with
                    | EmptyString => None
                    | String c3 r3 =>
                        if space3 c1 c2 c3 then Some r3 else None
                    end
           end
  end.

Definition newline : ascii := ascii_of_nat 10.

(** [s.lstrip()]: drop white-space characters from the start. *)
Fixpoint lstrip (s : string) : string :=
  match s with
  | EmptyString => EmptyString
  | String c1 r1 =>
      if space1 c1 then lstrip r1
      else match r1 with
           | EmptyString => s
           | String c2 r2 =>
               if space2 c1 c2 then lstrip r2
               else match r2 with
                    | EmptyString => s
                    | String c3 r3 =>
                        if space3 c1 c2 c3 then lstrip r3 else s
                    end
           end
  end.

(** [s.rstrip()]: cut the text where what remains is white space only. *)
Fixpoint rstrip (s : string) : string :=
  match s with
  | EmptyString => EmptyString
  | String c rest =>
      if String.eqb (lstrip s) EmptyString then EmptyString
      else String c (rstrip rest)
  end.

(** [s.strip()]. *)
Definition strip (s : string) : string := rstrip (lstrip s).

(** [s.split('\n')]: the pieces between line feeds, at least one piece. *)
Fixpoint split_lines (s : string) : list string :=
  match s with
  | EmptyString => [EmptyString]
  | String c rest =>
      if Ascii.eqb c newline then EmptyString :: split_lines rest
      else match split_lines rest with
           | piece :: pieces => String c piece :: pieces
           | [] => [String c EmptyString]
           end
  end.

(** [[f.strip() for f in stdout.split('\n') if f.strip()]]. *)
Definition parse_diff_output (stdout : string) : list string :=
  map strip
      (filter (fun f => negb (String.eqb (strip f) EmptyString))
              (split_lines stdout)).

(** [get_changed_files], given what the [git diff --name-only] subprocess
    produced: [Some stdout], the decoded output held as UTF-8, when it exited
    with status zero, [None] when it raised [CalledProcessError], which the
    function answers with the empty list. *)
Definition get_changed_files (diff : option string) : list string :=
  match diff with
  | Some stdout => parse_diff_output stdout
  | None => []
  end.

(** ['\n'.join(files)] followed by a final line feed, as [git diff
    --name-only] prints a list of paths. *)
Fixpoint diff_output (files : list string) : string :=
  match files with
  | [] => EmptyString
  | f :: rest => f ++ String newline (diff_output rest)
  end.

(** No line feed occurs in [s]. *)
Fixpoint no_newline (s : string) : bool :=
  match s with
  | EmptyString => true
  | String c rest => negb (Ascii.eqb c newline) && no_newline rest
  end.

(** A path [get_changed_files] can return: not empty, nothing to strip and
    no line feed. *)
Definition clean_path (f : string) : bool :=
  negb (String.eqb f EmptyString) && String.eqb (strip f) f && no_newline f.

End Diff.

(** ** The validation runner ([run_validation] of [validate-change-impact.py]) *)

Module Runner.

(** How a call ends: it returns a status, or [sys.exit] ends the process
    with one. *)
Inductive outcome : Type :=
| Returned : Z -> outcome
| Exited : Z -> outcome.

Definition failure (exit_on_error : bool) : outcome :=
  if exit_on_error then Exited 1 else Returned 1.

Section Run.
Variable format_value : json -> string.

(** [run_validation], on the loaded metadata document; the printed report is
    not part of the model.  An exception of the validation is caught and
    answered like a failed validation. *)
Definition run_validation (metadata : dict json) (strict exit_on_error : bool)
  : outcome :=
  match Validator.validate_change_impact format_value metadata strict with
  | Some (is_valid, errors, warnings) =>
      let no_errors := Nat.eqb (List.length errors) 0 in
      let no_warnings := Nat.eqb (List.length warnings) 0 in
      if no_errors && no_warnings then Returned 0
      else if is_valid && negb no_warnings && negb strict then Returned 0
      else if negb is_valid then failure exit_on_error
      else Returned 0
  | None => failure exit_on_error
  end.

(** The script's entry point: [sys.exit(run_validation(...))] with
    [exit_on_error = not args.no_exit]; the result is the status of the
    process. *)
Definition main (metadata : dict json) (strict no_exit : bool) : Z :=
  match run_validation metadata strict (negb no_exit) with
  | Returned code => code
  | Exited code => code
  end.
End Run.

End Runner.

(** * Properties *)

(** ** Dicts *)

Section DictFacts.
Context {V : Type}.
Implicit Types (d : dict V) (k : string) (v : V).

Lemma dict_get_set_same k v d : dict_get k (dict_set k v d) = Some v.
Proof.
  induction d as [|[k' v'] d IH]; simpl.
  - now rewrite String.eqb_refl.
  - destruct (String.eqb k k') eqn:E; simpl; rewrite E; auto.
Qed.

Lemma dict_get_set_other k k' v d :
  k <> k' -> dict_get k (dict_set k' v d) = dict_get k d.
Proof.
  intros Hne. induction d as [|[k0 v0] d IH]; simpl.
  - apply String.eqb_neq in Hne. now rewrite Hne.
  - destruct (String.eqb k' k0) eqn:E; simpl.
    + apply String.eqb_eq in E. subst k0.
      apply String.eqb_neq in Hne. now rewrite Hne.
    + now rewrite IH.
Qed.

Lemma dict_set_same_id k v d : dict_get k d = Some v -> dict_set k v d = d.
Proof.
  induction d as [|[k' v'] d IH]; simpl; [discriminate|].
  destruct (String.eqb k k') eqn:E; intros H.
  - now inversion H.
  - now rewrite IH.
Qed.

Lemma dict_get_Some_In k v d : dict_get k d = Some v -> In (k, v) d.
Proof.
  induction d as [|[k' v'] d IH]; simpl; [discriminate|].
  destruct (String.eqb k k') eqn:E; intros H.
  - apply String.eqb_eq in E. inversion H. subst. now left.
  - right. auto.
Qed.

Lemma dict_get_None_keys k d : dict_get k d = None <-> ~ In k (keys d).
Proof.
  induction d as [|[k' v'] d IH]; simpl; [tauto|].
  destruct (String.eqb k k') eqn:E.
  - apply String.eqb_eq in E. subst. split; [discriminate | tauto].
  - apply String.eqb_neq in E. rewrite IH. split.
    + intros H [H'|H']; [congruence | tauto].
    + tauto.
Qed.

Lemma dict_mem_keys k d : dict_mem k d = true <-> In k (keys d).
Proof.
  unfold dict_mem. destruct (dict_get k d) eqn:E.
  - split; [intros _ | reflexivity].
    apply dict_get_Some_In in E. apply (in_map fst) in E. exact E.
  - apply dict_get_None_keys in E. split; [discriminate | tauto].
Qed.

Lemma dict_get_NoDup k v d : NoDup (keys d) -> In (k, v) d -> dict_get k d = Some v.
Proof.
  induction d as [|[k' v'] d IH]; simpl; [tauto|].
  intros Hnd [H|H].
  - inversion H. subst. now rewrite String.eqb_refl.
  - inversion Hnd as [|? ? Hnotin Hnd']. subst.
    destruct (String.eqb k k') eqn:E.
    + apply String.eqb_eq in E. subst. exfalso. apply Hnotin.
      apply (in_map fst) in H. exact H.
    + auto.
Qed.

Lemma keys_dict_set k k' v d :
  In k (keys (dict_set k' v d)) <-> k = k' \/ In k (keys d).
Proof.
  induction d as [|[k0 v0] d IH]; simpl.
  - intuition.
  - destruct (String.eqb k' k0) eqn:E; simpl.
    + apply String.eqb_eq in E. subst. intuition.
    + rewrite IH. intuition.
Qed.

Lemma keys_dict_set_present k v d :
  In k (keys d) -> keys (dict_set k v d) = keys d.
Proof.
  induction d as [|[k0 v0] d IH]; simpl; [tauto|].
  destruct (String.eqb k k0) eqn:E; simpl; [reflexivity|].
  apply String.eqb_neq in E. intros [H|H]; [congruence|]. now rewrite IH.
Qed.

Lemma NoDup_keys_dict_set k v d :
  NoDup (keys d) -> NoDup (keys (dict_set k v d)).
Proof.
  induction d as [|[k0 v0] d IH]; simpl; intros Hnd.
  - constructor; [tauto | constructor].
  - inversion Hnd as [|? ? Hnotin Hnd']. subst.
    destruct (String.eqb k k0) eqn:E; simpl.
    + constructor; assumption.
    + apply String.eqb_neq in E. constructor; [|auto].
      intros Hin. apply keys_dict_set in Hin. destruct Hin; [congruence | tauto].
Qed.
End DictFacts.

(** ** The Impact Validator *)

Module ValidatorFacts.
Import Validator.

Section ValidateFacts.
Variable format_value : json -> string.

Lemma check_structure_nil md :
  check_structure md [] = [] <->
  dict_mem "affected_resources" md = true /\
  dict_mem "deployment_checklist" md = true.
Proof.
  unfold check_structure.
  destruct (dict_mem "affected_resources" md), (dict_mem "deployment_checklist" md);
    simpl; split; intros H; try discriminate; try tauto;
    destruct H; discriminate.
Qed.

Lemma check_structure_value md :
  check_structure md [] =
  (if dict_mem "affected_resources" md then []
   else [msg_missing_affected_resources])
  ++ (if dict_mem "deployment_checklist" md then []
      else [msg_missing_deployment_checklist]).
Proof.
  unfold check_structure.
  destruct (dict_mem "affected_resources" md), (dict_mem "deployment_checklist" md);
    reflexivity.
Qed.

Lemma check_coverage_inv cf ar w w' :
  check_coverage cf ar w = Some w' ->
  w' = w \/ exists n, py_len cf = Some n /\ w' = w ++ [msg_no_affected_resources n].
Proof.
  unfold check_coverage. intros H.
  destruct (nonempty_and_len cf) as [[|]|]; simpl in H; try discriminate.
  - destruct (falsy_or_len0 ar) as [[|]|]; simpl in H; try discriminate.
    + destruct (py_len cf) as [n|]; simpl in H; try discriminate.
      inversion H. right. now exists n.
    + inversion H. now left.
  - inversion H. now left.
Qed.

Lemma check_checklist_inv ar dc e e' :
  check_checklist ar dc e = Some e' ->
  e' = e \/ exists n, e' = e ++ [msg_checklist_empty n].
Proof.
  unfold check_checklist. intros H.
  destruct (nonempty_and_len ar) as [[|]|]; simpl in H; try discriminate.
  - destruct (py_values dc) as [vs|]; simpl in H; try discriminate.
    destruct (negb (any vs)).
    + destruct (py_len ar) as [n|]; simpl in H; try discriminate.
      inversion H. right. now exists n.
    + inversion H. now left.
  - inversion H. now left.
Qed.

Lemma check_enhanced_inv md ar w :
  check_enhanced md ar w = w \/ check_enhanced md ar w = w ++ [msg_no_conditions].
Proof.
  unfold check_enhanced.
  destruct (truthy (dict_get_default "enhanced" JNull md)); [|now left].
  destruct (negb _ && _); [now right | now left].
Qed.

Lemma check_resource_inv r w w' :
  check_resource format_value r w = Some w' ->
  exists extra, w' = w ++ extra /\ Forall (warning_text format_value) extra.
Proof.
  unfold check_resource. intros H.
  destruct (py_in "resource_type" r) as [b1|]; simpl in H; [|discriminate].
  destruct (py_in "impact_level" r) as [b2|] eqn:E2.
  2:{ destruct (negb b1); simpl in H.
      - destruct (py_get r "file" (JStr "unknown")); simpl in H; discriminate.
      - discriminate. }
  destruct b1, b2; simpl in H.
  - inversion H. exists []. rewrite app_nil_r. auto.
  - destruct (py_get r "file" (JStr "unknown")) as [f|]; simpl in H; [|discriminate].
    inversion H. exists [msg_resource_missing format_value "impact_level" f].
    split; [reflexivity|]. repeat constructor.
  - destruct (py_get r "file" (JStr "unknown")) as [f|]; simpl in H; [|discriminate].
    inversion H. exists [msg_resource_missing format_value "resource_type" f].
    split; [reflexivity|]. repeat constructor.
  - destruct (py_get r "file" (JStr "unknown")) as [f|]; simpl in H; [|discriminate].
    inversion H.
    exists [msg_resource_missing format_value "resource_type" f;
            msg_resource_missing format_value "impact_level" f].
    split; [now rewrite <- app_assoc|]. repeat constructor.
Qed.

Lemma check_resources_inv rs : forall w w',
  check_resources format_value rs w = Some w' ->
  exists extra, w' = w ++ extra /\ Forall (warning_text format_value) extra.
Proof.
  induction rs as [|r rs IH]; simpl; intros w w' H.
  - inversion H. exists []. rewrite app_nil_r. auto.
  - destruct (check_resource format_value r w) as [w1|] eqn:E; simpl in H;
      [|discriminate].
    apply check_resource_inv in E. destruct E as (x1 & -> & F1).
    apply IH in H. destruct H as (x2 & -> & F2).
    exists (x1 ++ x2). split; [now rewrite app_assoc|].
    apply Forall_app. auto.
Qed.

(** The critical resources are the entries whose level is ["CRITICAL"]. *)
Lemma critical_resources_In rs : forall crit r,
  critical_resources rs = Some crit ->
  In r rs -> py_get r "impact_level" JNull = Some (JStr "CRITICAL") ->
  In r crit.
Proof.
  induction rs as [|r0 rs IH]; simpl; intros crit r H Hin Hlevel; [tauto|].
  destruct (py_get r0 "impact_level" JNull) as [level|] eqn:E0; simpl in H;
    [|discriminate].
  destruct (critical_resources rs) as [rest|] eqn:Er; simpl in H; [|discriminate].
  inversion H; subst crit. destruct Hin as [<-|Hin].
  - rewrite E0 in Hlevel. inversion Hlevel. subst level. simpl. now left.
  - specialize (IH rest r eq_refl Hin Hlevel).
    destruct (eq_str "CRITICAL" level); [now right | assumption].
Qed.

Lemma check_critical_inv md rs e e' :
  check_critical md rs e = Some e' ->
  exists crit, critical_resources rs = Some crit /\
    e' = if negb (Nat.eqb (List.length crit) 0)
            && negb (truthy (dict_get_default "required_actions" (JArr []) md))
         then e ++ [msg_critical (List.length crit)] else e.
Proof.
  unfold check_critical. intros H.
  destruct (critical_resources rs) as [crit|]; simpl in H; [|discriminate].
  exists crit. split; [reflexivity|].
  destruct (negb _ && negb _); now inversion H.
Qed.

(** What a returned result looks like: either the structural gate fired,
    or every later check ran to its end. *)
Lemma validate_inv md strict ok errors warnings :
  validate_change_impact format_value md strict = Some (ok, errors, warnings) ->
  (check_structure md [] <> [] /\ ok = false /\
   errors = check_structure md [] /\ warnings = [])
  \/
  (check_structure md [] = [] /\
   let ar := dict_get_default "affected_resources" (JArr []) md in
   let dc := dict_get_default "deployment_checklist" (JObj []) md in
   let cf := dict_get_default "changed_files" (JArr []) md in
   exists w1 e1 rs,
     check_coverage cf ar [] = Some w1 /\
     check_checklist ar dc [] = Some e1 /\
     py_iter ar = Some rs /\
     check_resources format_value rs (check_enhanced md ar w1) = Some warnings /\
     check_critical md rs e1 = Some errors /\
     ok = Nat.eqb (List.length errors) 0
          && (negb strict || Nat.eqb (List.length warnings) 0)).
Proof.
  unfold validate_change_impact. intros H.
  destruct (check_structure md []) as [|m ms] eqn:Es.
  - right. split; [reflexivity|]. simpl in H. cbv zeta.
    destruct (check_coverage _ _ []) as [w1|] eqn:E1; simpl in H; [|discriminate].
    destruct (check_checklist _ _ []) as [e1|] eqn:E2; simpl in H; [|discriminate].
    destruct (py_iter _) as [rs|] eqn:E3; simpl in H; [|discriminate].
    destruct (check_resources _ rs _) as [w2|] eqn:E4; simpl in H; [|discriminate].
    destruct (check_critical md rs e1) as [e2|] eqn:E5; simpl in H; [|discriminate].
    inversion H. subst. exists w1, e1, rs. repeat split; assumption || reflexivity.
  - left. simpl in H. inversion H. subst. repeat split; congruence.
Qed.

Lemma validate_warnings md strict ok errors warnings :
  validate_change_impact format_value md strict = Some (ok, errors, warnings) ->
  Forall (warning_text format_value) warnings.
Proof.
  intros H. apply validate_inv in H.
  destruct H as [(_ & _ & _ & ->) | (_ & H)]; [constructor|].
  cbv zeta in H. destruct H as (w1 & e1 & rs & Hc & _ & _ & Hr & _).
  apply check_resources_inv in Hr. destruct Hr as (extra & -> & Hx).
  apply Forall_app. split; [|assumption].
  apply check_coverage_inv in Hc.
  match goal with |- Forall _ (check_enhanced ?m ?a ?w) =>
    destruct (check_enhanced_inv m a w) as [-> | ->] end;
    destruct Hc as [-> | (n & _ & ->)]; repeat constructor.
Qed.

Lemma msg_critical_not_warning n : ~ warning_text format_value (msg_critical n).
Proof.
  intros H. inversion H.
Qed.

Lemma check_resources_total rs : forall w,
  forallb is_dict rs = true ->
  exists w', check_resources format_value rs w = Some w'.
Proof.
  induction rs as [|r rs IH]; simpl; intros w H; [now exists w|].
  apply andb_prop in H. destruct H as [Hr Hrs].
  destruct r as [| | | | |d]; try discriminate.
  unfold check_resource. simpl.
  destruct (dict_mem "resource_type" d), (dict_mem "impact_level" d); simpl;
    apply IH; assumption.
Qed.

Lemma critical_resources_total rs :
  forallb is_dict rs = true -> exists crit, critical_resources rs = Some crit.
Proof.
  induction rs as [|r rs IH]; simpl; intros H; [now exists []|].
  apply andb_prop in H. destruct H as [Hr Hrs].
  destruct r as [| | | | |d]; try discriminate. simpl.
  destruct (IH Hrs) as [crit ->]. simpl. eauto.
Qed.

(** On a document of the expected types the validator returns a result. *)
Lemma validate_total md strict :
  well_typed md = true ->
  exists ok errors warnings, validate_change_impact format_value md strict = Some (ok, errors, warnings).
Proof.
  unfold well_typed, validate_change_impact, check_structure,
    dict_mem, dict_get_default.
  destruct (dict_get "affected_resources" md) as [[| | | |rs|]|]; try discriminate.
  destruct (dict_get "deployment_checklist" md) as [[| | | | |dc]|];
    try discriminate.
  assert (Htail : forallb is_dict rs = true -> forall fs,
    exists ok errors warnings,
      (w1 <- check_coverage (JArr fs) (JArr rs) [] ;;
       e1 <- check_checklist (JArr rs) (JObj dc) [] ;;
       resources <- py_iter (JArr rs) ;;
       w2 <- check_resources format_value resources
               (check_enhanced md (JArr rs) w1) ;;
       resources' <- py_iter (JArr rs) ;;
       e2 <- check_critical md resources' e1 ;;
       ret (Nat.eqb (List.length e2) 0
            && (negb strict || Nat.eqb (List.length w2) 0), e2, w2))
      = Some (ok, errors, warnings)).
  { intros Hrs fs.
    assert (Hcov : exists w1, check_coverage (JArr fs) (JArr rs) [] = Some w1).
    { unfold check_coverage. destruct fs, rs; simpl; eauto. }
    destruct Hcov as [w1 ->]. cbn [bind].
    assert (Hcl : exists e1, check_checklist (JArr rs) (JObj dc) [] = Some e1).
    { unfold check_checklist. destruct rs; simpl; eauto.
      destruct (negb _); simpl; eauto. }
    destruct Hcl as [e1 ->]. cbn [bind py_iter ret].
    destruct (check_resources_total rs (check_enhanced md (JArr rs) w1) Hrs)
      as [w2 ->]. cbn [bind].
    unfold check_critical.
    destruct (critical_resources_total rs Hrs) as [crit ->]. cbn [bind].
    destruct (negb _ && negb _); unfold ret; cbn [bind]; eauto. }
  destruct (dict_get "changed_files" md) as [[| | | |fs|]|]; try discriminate;
    intros Hrs; cbn [List.length Nat.eqb negb]; apply Htail; exact Hrs.
Qed.

(** C3.  Whenever the validator returns [(ok, errors, warnings)], [ok] is
    true exactly when [errors] is empty and, in strict mode, [warnings] is
    empty too; so without strict mode warnings alone never make [ok]
    false. *)
Theorem validate_verdict md strict ok errors warnings :
  validate_change_impact format_value md strict = Some (ok, errors, warnings) ->
  (ok = true <-> errors = [] /\ (strict = false \/ warnings = []))
  /\ (strict = false -> errors = [] -> ok = true).
Proof.
  intros H. apply validate_inv in H.
  destruct H as [(Hne & -> & -> & ->) | (_ & H)].
  - split.
    + split; [discriminate | intros [He _]; contradiction].
    + intros _ He. contradiction.
  - cbv zeta in H. destruct H as (_ & _ & _ & _ & _ & _ & _ & _ & ->).
    destruct errors, warnings, strict; simpl;
      intuition (discriminate || auto).
Qed.

(** C8.  A document without [affected_resources] or without
    [deployment_checklist] is answered at once: [ok] is false, the errors
    are the structural errors of the missing fields and nothing else, and
    there is no warning, whatever the rest of the document holds. *)
Theorem structural_gate md strict :
  dict_mem "affected_resources" md = false \/
  dict_mem "deployment_checklist" md = false ->
  validate_change_impact format_value md strict =
  Some (false,
        (if dict_mem "affected_resources" md then []
         else [msg_missing_affected_resources])
        ++ (if dict_mem "deployment_checklist" md then []
            else [msg_missing_deployment_checklist]),
        []).
Proof.
  intros H. unfold validate_change_impact. rewrite check_structure_value.
  destruct (dict_mem "affected_resources" md), (dict_mem "deployment_checklist" md);
    simpl; try reflexivity.
  destruct H; discriminate.
Qed.

(** C4.  On a document that has both required fields, if some entry of
    [affected_resources] has [impact_level] equal to ["CRITICAL"] and
    [required_actions] is empty, every result the validator returns has
    [ok] false and carries the critical-resources message among its
    errors and never among its warnings, in strict and in non-strict mode
    alike; and on a document of the expected types a result is returned. *)
Theorem critical_without_actions md strict rs d :
  dict_get "affected_resources" md = Some (JArr rs) ->
  dict_mem "deployment_checklist" md = true ->
  In (JObj d) rs ->
  dict_get "impact_level" d = Some (JStr "CRITICAL") ->
  truthy (dict_get_default "required_actions" (JArr []) md) = false ->
  (forall ok errors warnings,
      validate_change_impact format_value md strict
      = Some (ok, errors, warnings) ->
      ok = false
      /\ (exists n, 0 < n /\ In (msg_critical n) errors)
      /\ (forall n, ~ In (msg_critical n) warnings))
  /\ (well_typed md = true ->
      exists errors warnings,
        validate_change_impact format_value md strict
        = Some (false, errors, warnings)).
Proof.
  intros Har Hdc Hin Hlevel Hact.
  assert (Hmain : forall ok errors warnings,
      validate_change_impact format_value md strict
      = Some (ok, errors, warnings) ->
      ok = false
      /\ (exists n, 0 < n /\ In (msg_critical n) errors)
      /\ (forall n, ~ In (msg_critical n) warnings)).
  { intros ok errors warnings H.
    pose proof (validate_warnings _ _ _ _ _ H) as Hw.
    apply validate_inv in H.
    destruct H as [(Hne & _) | (_ & H)].
    - exfalso. apply Hne. apply check_structure_nil. split; [|assumption].
      unfold dict_mem. now rewrite Har.
    - cbv zeta in H. unfold dict_get_default in H at 1 2 3 4 5.
      rewrite Har in H. simpl in H.
      destruct H as (w1 & e1 & rs' & _ & _ & Hrs & _ & Hcrit & ->).
      inversion Hrs; subst rs'.
      apply check_critical_inv in Hcrit. destruct Hcrit as (crit & Hc & ->).
      assert (Hincrit : In (JObj d) crit).
      { apply (critical_resources_In rs crit (JObj d) Hc Hin).
        simpl. unfold dict_get_default. now rewrite Hlevel. }
      rewrite Hact. destruct crit as [|c crit]; [contradiction|]. simpl.
      split; [|split].
      + rewrite length_app. simpl.
        replace (List.length e1 + 1) with (S (List.length e1)) by lia.
        reflexivity.
      + exists (S (List.length crit)). split; [lia|].
        apply in_or_app. right. now left.
      + intros n Hn. rewrite Forall_forall in Hw.
        apply (msg_critical_not_warning n). auto. }
  split; [exact Hmain|].
  intros Hwt. destruct (validate_total md strict Hwt) as (ok & e & w & Hv).
  destruct (Hmain _ _ _ Hv) as (-> & _). eauto.
Qed.
End ValidateFacts.

End ValidatorFacts.

(** ** The Change Detector *)

Module DetectorFacts.
Import Detector.

(** *** The checklist updates *)

Lemma keys_set_true_present (ks : list string) : forall d : dict bool,
(forall k, In k ks -> In k (keys d)) ->
keys (fold_left (fun d k => dict_set k true d) ks d) = keys d.
Proof.
induction ks as [|k ks IH]; simpl; intros d H; [reflexivity|].
rewrite IH.
- apply keys_dict_set_present. auto.
- intros k' Hk'. rewrite keys_dict_set_present; auto.
Qed.

Lemma keys_set_all_true (d : dict bool) : keys (set_all_true d) = keys d.
Proof. unfold set_all_true. apply keys_set_true_present. auto. Qed.

Lemma dict_set_true_mono (k k' : string) (d : dict bool) :
dict_get k d = Some true -> dict_get k (dict_set k' true d) = Some true.
Proof.
intros H. destruct (string_dec k k') as [->|Hne].
- apply dict_get_set_same.
- now rewrite dict_get_set_other.
Qed.

Lemma fold_set_true_mono (k : string) (ks : list string) : forall d : dict bool,
dict_get k d = Some true ->
dict_get k (fold_left (fun d k => dict_set k true d) ks d) = Some true.
Proof.
induction ks as [|k' ks IH]; simpl; intros d H; [assumption|].
apply IH. now apply dict_set_true_mono.
Qed.

Lemma fold_set_true_In (k : string) (ks : list string) : forall d : dict bool,
In k ks ->
dict_get k (fold_left (fun d k => dict_set k true d) ks d) = Some true.
Proof.
induction ks as [|k' ks IH]; simpl; intros d H; [contradiction|].
destruct H as [->|H].
- apply fold_set_true_mono. apply dict_get_set_same.
- now apply IH.
Qed.

Lemma set_all_true_get (k : string) (d : dict bool) :
In k (keys d) -> dict_get k (set_all_true d) = Some true.
Proof. unfold set_all_true. apply fold_set_true_In. Qed.

Lemma update_checklist_mono target (k : string) (d : dict bool) :
dict_get k d = Some true -> dict_get k (update_checklist target d) = Some true.
Proof.
intros H. unfold update_checklist. destruct target as [t|]; [|assumption].
destruct (String.eqb t "all").
- unfold set_all_true. now apply fold_set_true_mono.
- destruct (negb (String.eqb t "")); [now apply dict_set_true_mono | assumption].
Qed.

(** The keys after one update: a non-empty target other than ["all"] is a
  key afterwards, and nothing else changes. *)
Lemma keys_update_checklist target (k : string) (d : dict bool) :
In k (keys (update_checklist target d)) <->
In k (keys d) \/ (target = Some k /\ k <> "all" /\ k <> "").
Proof.
unfold update_checklist. destruct target as [t|].
- destruct (String.eqb t "all") eqn:Eall.
  + rewrite keys_set_all_true. apply String.eqb_eq in Eall. subst t.
    split; [tauto|]. intros [H|(H & Hne & _)]; [assumption|].
    inversion H. congruence.
  + apply String.eqb_neq in Eall.
    destruct (String.eqb t "") eqn:Eempty; simpl.
    * apply String.eqb_eq in Eempty. subst t. split; [tauto|].
      intros [H|(H & _ & Hne)]; [assumption|]. inversion H. congruence.
    * apply String.eqb_neq in Eempty. rewrite keys_dict_set. split.
      -- intros [->|H]; [right | left]; auto.
      -- intros [H|(H & _)]; [now right|]. inversion H. now left.
- split; [tauto|]. intros [H|(H & _)]; [assumption | discriminate].
Qed.

Lemma NoDup_keys_update_checklist target (d : dict bool) :
NoDup (keys d) -> NoDup (keys (update_checklist target d)).
Proof.
intros H. unfold update_checklist. destruct target as [t|]; [|assumption].
destruct (String.eqb t "all").
- now rewrite keys_set_all_true.
- destruct (negb (String.eqb t "")); [now apply NoDup_keys_dict_set | assumption].
Qed.

(** *** The initial checklist *)

Lemma keys_fold_set_false (k : string) (ks : list string) : forall d : dict bool,
In k (keys (fold_left (fun d key => dict_set key false d) ks d)) <->
In k ks \/ In k (keys d).
Proof.
induction ks as [|k' ks IH]; simpl; intros d; [tauto|].
rewrite IH, keys_dict_set. intuition.
Qed.

Lemma dict_set_values (b : bool) (k : string) (d : dict bool) :
(forall kv, In kv d -> snd kv = b) ->
forall kv, In kv (dict_set k b d) -> snd kv = b.
Proof.
induction d as [|[k0 v0] d IH]; simpl; intros H kv Hin.
- destruct Hin as [<-|[]]. reflexivity.
- destruct (String.eqb k k0); simpl in Hin.
  + destruct Hin as [<-|Hin]; [reflexivity | auto].
  + destruct Hin as [<-|Hin]; [apply (H (k0, v0)); now left|].
    apply IH; auto.
Qed.

Lemma fold_set_false_values (ks : list string) : forall d : dict bool,
(forall kv, In kv d -> snd kv = false) ->
forall kv, In kv (fold_left (fun d key => dict_set key false d) ks d) ->
           snd kv = false.
Proof.
induction ks as [|k ks IH]; simpl; intros d H; [assumption|].
apply IH. now apply dict_set_values.
Qed.

Lemma NoDup_fold_set_false (ks : list string) : forall d : dict bool,
NoDup (keys d) ->
NoDup (keys (fold_left (fun d key => dict_set key false d) ks d)).
Proof.
induction ks as [|k ks IH]; simpl; intros d H; [assumption|].
apply IH. now apply NoDup_keys_dict_set.
Qed.

Lemma keys_initial_checklist (cfg : config) (k : string) :
In k (keys (initial_checklist cfg)) <->
In k (keys (deployment_checklist_config cfg)).
Proof.
unfold initial_checklist. rewrite keys_fold_set_false. simpl. tauto.
Qed.

Lemma initial_checklist_false (cfg : config) (kv : string * bool) :
In kv (initial_checklist cfg) -> snd kv = false.
Proof. apply fold_set_false_values. intros ? []. Qed.

(** *** Matching *)

Section DetectFacts.
Variable fnmatch : string -> string -> bool.

Lemma any_pattern_matches_existsb path pats :
  any_pattern_matches fnmatch path pats = existsb (fnmatch path) pats.
Proof.
  induction pats as [|p pats IH]; simpl; [reflexivity|].
  rewrite IH. now destruct (fnmatch path p).
Qed.

Lemma any_pattern_matches_iff path pats :
  any_pattern_matches fnmatch path pats = true <->
  exists pattern, In pattern pats /\ fnmatch path pattern = true.
Proof. rewrite any_pattern_matches_existsb. apply existsb_exists. Qed.

Lemma match_file_to_mapping_filter file_path mappings :
  match_file_to_mapping fnmatch file_path mappings =
  filter (fun m => any_pattern_matches fnmatch (normalize_path file_path)
                                       (patterns (snd m)))
         mappings.
Proof.
  induction mappings as [|[k mc] ms IH]; simpl; [reflexivity|].
  rewrite IH. reflexivity.
Qed.

(** *** The two loops as one pass over the matched pairs *)

Lemma fold_record_match file_path ms : forall md,
  fold_left (record_match file_path) ms md =
  fold_left apply_pair (map (fun m => (file_path, m)) ms) md.
Proof. induction ms as [|m ms IH]; simpl; intros md; [reflexivity | apply IH]. Qed.

Lemma fold_process_file cfg changed : forall md,
  fold_left (process_file fnmatch cfg) changed md =
  fold_left apply_pair (matched_pairs fnmatch cfg changed) md.
Proof.
  induction changed as [|f fs IH]; simpl; intros md; [reflexivity|].
  rewrite fold_left_app, IH. unfold process_file.
  destruct (is_excluded fnmatch f (exclusion_patterns cfg)); simpl;
    [reflexivity|].
  now rewrite fold_record_match.
Qed.

Lemma matched_pairs_In cfg changed file_path m :
  In (file_path, m) (matched_pairs fnmatch cfg changed) <->
  In file_path changed /\
  is_excluded fnmatch file_path (exclusion_patterns cfg) = false /\
  In m (match_file_to_mapping fnmatch file_path (resource_mappings cfg)).
Proof.
  unfold matched_pairs. rewrite in_flat_map. split.
  - intros (f & Hf & Hin).
    destruct (is_excluded fnmatch f (exclusion_patterns cfg)) eqn:E;
      [contradiction|].
    apply in_map_iff in Hin. destruct Hin as (m' & Heq & Hm).
    inversion Heq. subst. auto.
  - intros (Hf & Hex & Hm). exists file_path. split; [assumption|].
    rewrite Hex. apply in_map_iff. now exists m.
Qed.

Lemma fold_apply_pair_resources ps : forall md,
  cm_affected_resources (fold_left apply_pair ps md) =
  cm_affected_resources md
  ++ map (fun p => resource_entry (fst p) (fst (snd p)) (snd (snd p))) ps.
Proof.
  induction ps as [|[f [k mc]] ps IH]; simpl; intros md.
  - now rewrite app_nil_r.
  - rewrite IH. simpl. now rewrite <- app_assoc.
Qed.

Lemma fold_apply_pair_checklist ps : forall md,
  cm_deployment_checklist (fold_left apply_pair ps md) =
  fold_left (fun d p => update_checklist (target_stack (snd (snd p))) d) ps
            (cm_deployment_checklist md).
Proof.
  induction ps as [|[f [k mc]] ps IH]; simpl; intros md; [reflexivity|].
  now rewrite IH.
Qed.

Lemma fold_apply_pair_changed_files ps : forall md,
  cm_changed_files (fold_left apply_pair ps md) = cm_changed_files md.
Proof.
  induction ps as [|[f [k mc]] ps IH]; simpl; intros md; [reflexivity|].
  now rewrite IH.
Qed.

Lemma keys_fold_update ps (k : string) : forall d : dict bool,
  In k (keys (fold_left
                (fun d (p : string * (string * mapping_config)) =>
                   update_checklist (target_stack (snd (snd p))) d) ps d)) <->
  In k (keys d) \/
  (exists p, In p ps /\ target_stack (snd (snd p)) = Some k
             /\ k <> "all" /\ k <> "").
Proof.
  induction ps as [|p ps IH]; simpl; intros d.
  - split; [tauto|]. intros [H|(p & [] & _)]. assumption.
  - rewrite IH, keys_update_checklist. split.
    + intros [[H|H]|(q & Hq & H)]; [now left | right; exists p | right; exists q];
        tauto.
    + intros [H|(q & [<-|Hq] & H)]; [tauto | tauto | right; exists q; tauto].
Qed.

Lemma fold_update_mono ps (k : string) : forall d : dict bool,
  dict_get k d = Some true ->
  dict_get k (fold_left
                (fun d (p : string * (string * mapping_config)) =>
                   update_checklist (target_stack (snd (snd p))) d) ps d)
  = Some true.
Proof.
  induction ps as [|p ps IH]; simpl; intros d H; [assumption|].
  apply IH. now apply update_checklist_mono.
Qed.

Lemma NoDup_fold_update ps : forall d : dict bool,
  NoDup (keys d) ->
  NoDup (keys (fold_left
                 (fun d (p : string * (string * mapping_config)) =>
                    update_checklist (target_stack (snd (snd p))) d) ps d)).
Proof.
  induction ps as [|p ps IH]; simpl; intros d H; [assumption|].
  apply IH. now apply NoDup_keys_update_checklist.
Qed.

(** *** The run *)

Lemma run_as_pairs config_path base_commit head_commit cfg changed :
  run_change_detection fnmatch config_path base_commit head_commit cfg changed
  = fold_left apply_pair (matched_pairs fnmatch cfg changed)
      (initial_metadata config_path base_commit head_commit cfg changed).
Proof. unfold run_change_detection. apply fold_process_file. Qed.

Lemma run_affected_resources config_path base_commit head_commit cfg changed :
  cm_affected_resources
    (run_change_detection fnmatch config_path base_commit head_commit cfg
                          changed)
  = map (fun p => resource_entry (fst p) (fst (snd p)) (snd (snd p)))
        (matched_pairs fnmatch cfg changed).
Proof. rewrite run_as_pairs, fold_apply_pair_resources. reflexivity. Qed.

Lemma run_checklist_NoDup config_path base_commit head_commit cfg changed :
  NoDup (keys (cm_deployment_checklist
                 (run_change_detection fnmatch config_path base_commit
                                       head_commit cfg changed))).
Proof.
  rewrite run_as_pairs, fold_apply_pair_checklist. apply NoDup_fold_update.
  simpl. unfold initial_checklist. apply NoDup_fold_set_false. constructor.
Qed.

Lemma fold_process_file_filter cfg changed : forall md,
  fold_left (process_file fnmatch cfg) changed md
  = fold_left (process_file fnmatch cfg)
      (filter (fun f => negb (is_excluded fnmatch f (exclusion_patterns cfg)))
              changed)
      md.
Proof.
  induction changed as [|f fs IH]; simpl; intros md; [reflexivity|].
  destruct (is_excluded fnmatch f (exclusion_patterns cfg)) eqn:Hex; simpl.
  - unfold process_file at 2. rewrite Hex. apply IH.
  - apply IH.
Qed.

Lemma filter_key_absent file_path k (ms : dict mapping_config) :
  ~ In k (keys ms) ->
  filter (fun m => String.eqb (fst m) k)
         (match_file_to_mapping fnmatch file_path ms) = [].
Proof.
  induction ms as [|[k' mc'] ms IH]; simpl; intros H; [reflexivity|].
  assert (Hne : String.eqb k' k = false) by (apply String.eqb_neq; tauto).
  destruct (any_pattern_matches _ _ _); simpl; [rewrite Hne|]; apply IH; tauto.
Qed.

Lemma filter_key_present file_path k mc (ms : dict mapping_config) :
  NoDup (keys ms) -> In (k, mc) ms ->
  List.length (filter (fun m => String.eqb (fst m) k)
                      (match_file_to_mapping fnmatch file_path ms))
  = if any_pattern_matches fnmatch (normalize_path file_path) (patterns mc)
    then 1 else 0.
Proof.
  induction ms as [|[k' mc'] ms IH]; simpl; intros Hnd Hin; [contradiction|].
  inversion Hnd as [|? ? Hnotin Hnd']. subst.
  destruct Hin as [Heq|Hin].
  - inversion Heq. subst k' mc'.
    destruct (any_pattern_matches fnmatch (normalize_path file_path)
                                  (patterns mc));
      simpl; [rewrite String.eqb_refl; simpl|];
      now rewrite filter_key_absent.
  - assert (Hne : String.eqb k' k = false).
    { apply String.eqb_neq. intros ->. apply Hnotin.
      apply (in_map fst) in Hin. exact Hin. }
    destruct (any_pattern_matches fnmatch (normalize_path file_path)
                                  (patterns mc'));
      simpl; [rewrite Hne|]; apply IH; assumption.
Qed.

End DetectFacts.

End DetectorFacts.

(** ** The detector's document under the validator *)

Module PipelineFacts.
Import Detector Validator DetectorFacts ValidatorFacts.

Section Pipeline.
Variable fnmatch : string -> string -> bool.
Variable format_value : json -> string.

Lemma check_resources_entries ps : forall w,
  check_resources format_value
    (map (fun p : string * (string * mapping_config) =>
            resource_entry (fst p) (fst (snd p)) (snd (snd p))) ps) w
  = Some w.
Proof. induction ps as [|p ps IH]; simpl; intros w; [reflexivity | apply IH]. Qed.

Lemma entries_are_dicts ps :
  forallb is_dict
    (map (fun p : string * (string * mapping_config) =>
            resource_entry (fst p) (fst (snd p)) (snd (snd p))) ps) = true.
Proof. induction ps as [|p ps IH]; simpl; [reflexivity | exact IH]. Qed.

Lemma msg_resource_missing_not_coverage field file n :
  msg_resource_missing format_value field file <> msg_no_affected_resources n.
Proof. unfold msg_resource_missing, msg_no_affected_resources. simpl. discriminate. Qed.

(** The validator on a document whose resource entries were all built by
    the detector: it returns, and its only possible warning is the
    coverage warning. *)
Lemma validate_document md strict ps :
  cm_affected_resources md
  = map (fun p : string * (string * mapping_config) =>
           resource_entry (fst p) (fst (snd p)) (snd (snd p))) ps ->
  exists ok errors warnings,
    validate_change_impact format_value (to_document md) strict
    = Some (ok, errors, warnings)
    /\ (warnings = [] \/ exists n, warnings = [msg_no_affected_resources n]).
Proof.
  intros Hps. unfold validate_change_impact. cbn.
  destruct (check_coverage (JArr (map JStr (cm_changed_files md)))
                           (JArr (cm_affected_resources md)) []) as [w1|] eqn:Ec.
  2:{ exfalso. unfold check_coverage in Ec.
      destruct (cm_changed_files md), (cm_affected_resources md);
        simpl in Ec; discriminate. }
  cbn [bind].
  destruct (check_checklist (JArr (cm_affected_resources md))
              (JObj (map (fun kv : string * bool => (fst kv, JBool (snd kv)))
                         (cm_deployment_checklist md))) []) as [e1|] eqn:El.
  2:{ exfalso. unfold check_checklist in El.
      destruct (cm_affected_resources md); simpl in El; [discriminate|].
      destruct (negb _) in El; simpl in El; discriminate. }
  cbn [bind]. rewrite Hps, check_resources_entries. cbn [bind].
  unfold check_critical.
  destruct (critical_resources_total _ (entries_are_dicts ps)) as [crit ->].
  cbn [bind].
  assert (Hw : w1 = [] \/ exists n, w1 = [msg_no_affected_resources n]).
  { apply check_coverage_inv in Ec.
    destruct Ec as [->|(n & _ & ->)]; [now left | right; now exists n]. }
  destruct (negb _ && negb _); unfold ret; cbn [bind];
    do 3 eexists; (split; [reflexivity | exact Hw]).
Qed.

(** C10.  Every entry of the detector's [affected_resources] is a dict
    with the six keys [file], [mapping], [resource_type], [impact_level],
    [target_stack] and [description] (a field the mapping lacks is present
    with value [null]); hence the validator, run on the detector's
    document, returns a result none of whose warnings is a
    resource-missing warning. *)
Theorem detector_entries_complete
        config_path base_commit head_commit cfg changed strict :
  (forall e,
      In e (cm_affected_resources
              (run_change_detection fnmatch config_path base_commit
                                    head_commit cfg changed)) ->
      exists d, e = JObj d /\
                keys d = ["file"; "mapping"; "resource_type"; "impact_level";
                          "target_stack"; "description"])
  /\ (exists ok errors warnings,
         validate_change_impact format_value
           (to_document
              (run_change_detection fnmatch config_path base_commit
                                    head_commit cfg changed))
           strict
         = Some (ok, errors, warnings)
         /\ forall field file,
             ~ In (msg_resource_missing format_value field file) warnings).
Proof.
  split.
  - intros e He. rewrite run_affected_resources in He.
    apply in_map_iff in He. destruct He as (p & <- & _).
    unfold resource_entry. eexists. split; reflexivity.
  - destruct (validate_document
                (run_change_detection fnmatch config_path base_commit
                                      head_commit cfg changed)
                strict (matched_pairs fnmatch cfg changed)
                (run_affected_resources fnmatch _ _ _ _ _))
      as (ok & errors & warnings & Hv & Hw).
    exists ok, errors, warnings. split; [exact Hv|].
    intros field file Hin. destruct Hw as [->|(n & ->)].
    + contradiction.
    + destruct Hin as [Heq|[]].
      symmetry in Heq. revert Heq. apply msg_resource_missing_not_coverage.
Qed.
End Pipeline.

End PipelineFacts.

(** ** The Metadata Enhancer *)

Module EnhancerFacts.
Import Enhancer.

Section Conditions.
Variable condition_mapping : dict string.

Lemma add_condition_yields conditions k v name :
  yields condition_mapping name (k, v) ->
  add_condition condition_mapping conditions (k, v)
  = dict_set name v conditions.
Proof.
  intros [Hget Hne]. simpl in Hget. unfold add_condition. rewrite Hget.
  apply String.eqb_neq in Hne. now rewrite Hne.
Qed.

Lemma add_condition_other conditions item name :
  ~ yields condition_mapping name item ->
  dict_get name (add_condition condition_mapping conditions item)
  = dict_get name conditions.
Proof.
  destruct item as [k v]. intros Hno. unfold add_condition.
  destruct (dict_get k condition_mapping) as [c|] eqn:Ec; [|reflexivity].
  destruct (String.eqb c "") eqn:Ee; simpl; [reflexivity|].
  apply String.eqb_neq in Ee. apply dict_get_set_other.
  intros <-. apply Hno. split; assumption.
Qed.

Lemma yields_dec name item : yields condition_mapping name item \/ ~ yields condition_mapping name item.
Proof.
  unfold yields. destruct (dict_get (fst item) condition_mapping) as [c|].
  - destruct (string_dec c name) as [->|Hne].
    + destruct (string_dec name "") as [->|Hne']; [right | left]; intuition.
    + right. intros [H _]. congruence.
  - right. intros [H _]. discriminate.
Qed.

(** Every condition the loop leaves was there before or comes from an
    item that yields it. *)
Lemma fold_add_condition_sound items name v : forall conditions,
  dict_get name (fold_left (add_condition condition_mapping) items conditions)
  = Some v ->
  dict_get name conditions = Some v \/
  exists k, In (k, v) items /\ yields condition_mapping name (k, v).
Proof.
  induction items as [|[k0 v0] items IH]; cbn [fold_left]; intros conditions H;
    [now left|].
  apply IH in H. destruct H as [H|(k & Hin & Hy)].
  - destruct (yields_dec name (k0, v0)) as [Hy|Hno].
    + rewrite (add_condition_yields _ _ _ _ Hy), dict_get_set_same in H.
      inversion H. subst v0. right. exists k0. split; [now left | assumption].
    + rewrite add_condition_other in H by assumption. now left.
  - right. exists k. split; [now right | assumption].
Qed.

Lemma keys_add_condition conditions item name :
  In name (keys conditions) ->
  In name (keys (add_condition condition_mapping conditions item)).
Proof.
  destruct item as [k v]. intros H. unfold add_condition.
  destruct (dict_get k condition_mapping) as [c|]; [|assumption].
  destruct (negb (String.eqb c "")); [|assumption].
  apply keys_dict_set. now right.
Qed.

Lemma keys_fold_add_condition items name : forall conditions,
  In name (keys conditions) ->
  In name (keys (fold_left (add_condition condition_mapping) items conditions)).
Proof.
  induction items as [|item items IH]; cbn [fold_left]; intros conditions H;
    [assumption|].
  apply IH. now apply keys_add_condition.
Qed.

(** An item that yields [name] makes [name] a condition. *)
Lemma fold_add_condition_complete items name k v : forall conditions,
  In (k, v) items -> yields condition_mapping name (k, v) ->
  In name (keys (fold_left (add_condition condition_mapping) items conditions)).
Proof.
  induction items as [|item items IH]; cbn [fold_left]; intros conditions Hin Hy;
    [contradiction|].
  destruct Hin as [->|Hin].
  - apply keys_fold_add_condition.
    rewrite (add_condition_yields _ _ _ _ Hy). apply keys_dict_set. now left.
  - now apply IH.
Qed.

Lemma fold_add_condition_keep items name v : forall conditions,
  (forall k' v', In (k', v') items -> yields condition_mapping name (k', v') -> v' = v) ->
  dict_get name conditions = Some v ->
  dict_get name (fold_left (add_condition condition_mapping) items conditions)
  = Some v.
Proof.
  induction items as [|[k0 v0] items IH]; cbn [fold_left]; intros conditions Hall H;
    [assumption|].
  apply IH; [intros k' v' Hin; apply Hall; now right|].
  destruct (yields_dec name (k0, v0)) as [Hy|Hno].
  - rewrite (add_condition_yields _ _ _ _ Hy), dict_get_set_same.
    f_equal. apply (Hall k0 v0); [now left | assumption].
  - now rewrite add_condition_other.
Qed.

(** When every item that yields [name] carries the flag [v], and one
    does, the loop leaves [name] with [v]. *)
Lemma fold_add_condition_value items name k v : forall conditions,
  In (k, v) items -> yields condition_mapping name (k, v) ->
  (forall k' v', In (k', v') items -> yields condition_mapping name (k', v') -> v' = v) ->
  dict_get name (fold_left (add_condition condition_mapping) items conditions)
  = Some v.
Proof.
  induction items as [|[k0 v0] items IH]; cbn [fold_left]; intros conditions Hin Hy Hall;
    [contradiction|].
  destruct Hin as [Heq|Hin].
  - inversion Heq. subst k0 v0.
    apply fold_add_condition_keep; [intros k' v' H; apply Hall; now right|].
    rewrite (add_condition_yields _ _ _ _ Hy). apply dict_get_set_same.
  - apply IH; [assumption | assumption |].
    intros k' v' H. apply Hall. now right.
Qed.

(** Items that do not yield [name] leave its condition as it is. *)
Lemma fold_add_condition_untouched items name : forall conditions,
  (forall item, In item items -> ~ yields condition_mapping name item) ->
  dict_get name (fold_left (add_condition condition_mapping) items conditions)
  = dict_get name conditions.
Proof.
  induction items as [|item items IH]; cbn [fold_left]; intros conditions H;
    [reflexivity|].
  rewrite IH by (intros i Hi; apply H; now right).
  apply add_condition_other. apply H. now left.
Qed.
End Conditions.

(** *** Enhancing twice *)

Lemma prepare_inv metadata condition_mapping enhanced :
prepare_change_metadata metadata condition_mapping = Some enhanced ->
exists items n,
  dict_get_default "deployment_checklist" (JObj []) metadata = JObj items /\
  py_len (dict_get_default "affected_resources" (JArr []) metadata) = Some n /\
  enhanced =
  dict_set "is_valid" (JBool (Nat.ltb 0 n && any (values items)))
    (dict_set "has_deployments" (JBool (any (values items)))
       (dict_set "has_affected_resources" (JBool (Nat.ltb 0 n))
          (dict_set "enhanced" (JBool true)
             (dict_set "metadata_version" (JStr "2.0")
                (dict_set "cloudformation_conditions"
                   (JObj (build_conditions condition_mapping items))
                   metadata))))).
Proof.
unfold prepare_change_metadata. intros H.
destruct (dict_get_default "deployment_checklist" (JObj []) metadata)
  as [| | | | |items]; try discriminate.
cbn [py_items py_values bind ret] in H.
destruct (py_len (dict_get_default "affected_resources" (JArr []) metadata))
  as [n|]; [|discriminate].
cbn [bind ret] in H. inversion H. eauto.
Qed.

(** C2 (amended).  The [cloudformation_conditions] of the document the
    enhancer returns are built from the checklist pairs taken in order, then
    the composite.  Every condition is either the composite
    [DeployApplicationStack], carrying the flag of the [application] key, or
    the non-empty name the mapping gives to a checklist key, carrying that
    key's flag; so a key without entry, or with the empty name as its entry,
    produces no condition.  Every key with a non-empty entry produces its
    condition, and its value is the flag of the last key of the checklist
    mapped to that name, unless the composite overwrites it.  The composite
    is set whenever [application] is a checklist key, whatever the mapping
    holds; and for the checklist [{"application": true}] and a mapping
    without entry for [application] the conditions are exactly
    [{"DeployApplicationStack": true}]. *)
Theorem conditions_built metadata condition_mapping enhanced :
  prepare_change_metadata metadata condition_mapping = Some enhanced ->
  exists deployment_checklist conditions,
    dict_get_default "deployment_checklist" (JObj []) metadata
    = JObj deployment_checklist
    /\ dict_get "cloudformation_conditions" enhanced = Some (JObj conditions)
    /\ conditions
       = add_composite deployment_checklist
           (fold_left (add_condition condition_mapping) deployment_checklist [])
    /\ (forall name v,
           dict_get name conditions = Some v ->
           (name = "DeployApplicationStack" /\
            dict_get "application" deployment_checklist = Some v)
           \/ (exists k, In (k, v) deployment_checklist /\
                         dict_get k condition_mapping = Some name /\
                         name <> ""))
    /\ (forall k v name,
           In (k, v) deployment_checklist ->
           dict_get k condition_mapping = Some name -> name <> "" ->
           In name (keys conditions))
    /\ (forall before k v after name,
           deployment_checklist = before ++ (k, v) :: after ->
           dict_get k condition_mapping = Some name -> name <> "" ->
           (forall k' v', In (k', v') after ->
                          dict_get k' condition_mapping <> Some name) ->
           (name = "DeployApplicationStack" ->
            dict_mem "application" deployment_checklist = false) ->
           dict_get name conditions = Some v)
    /\ (forall k v name,
           In (k, v) deployment_checklist ->
           dict_get k condition_mapping = Some name -> name <> "" ->
           (forall k' v', In (k', v') deployment_checklist ->
                          dict_get k' condition_mapping = Some name -> v' = v) ->
           (name = "DeployApplicationStack" ->
            dict_mem "application" deployment_checklist = false) ->
           dict_get name conditions = Some v)
    /\ (forall v,
           dict_get "application" deployment_checklist = Some v ->
           dict_get "DeployApplicationStack" conditions = Some v)
    /\ (deployment_checklist = [("application", JBool true)] ->
        dict_get "application" condition_mapping = None ->
        conditions = [("DeployApplicationStack", JBool true)]).
Proof.
  intros H. apply prepare_inv in H. destruct H as (items & n & Hdc & _ & ->).
  exists items, (build_conditions condition_mapping items).
  split; [exact Hdc|].
  split; [now rewrite !dict_get_set_other by discriminate;
          rewrite dict_get_set_same|].
  split; [reflexivity|].
  unfold build_conditions, add_composite, dict_mem, dict_get_default.
  split; [|split; [|split; [|split; [|split]]]].
  - intros name v H.
    destruct (dict_get "application" items) as [a|] eqn:Ea.
    + destruct (string_dec name "DeployApplicationStack") as [->|Hne].
      * rewrite dict_get_set_same in H. left. auto.
      * rewrite dict_get_set_other in H by assumption.
        apply fold_add_condition_sound in H.
        destruct H as [H|(k & Hin & Hy & Hn)]; [discriminate | right; eauto].
    + apply fold_add_condition_sound in H.
      destruct H as [H|(k & Hin & Hy & Hn)]; [discriminate | right; eauto].
  - intros k v name Hin Hget Hne.
    assert (Hkeys : In name (keys (fold_left (add_condition condition_mapping)
                                             items []))).
    { apply (fold_add_condition_complete condition_mapping _ _ k v);
        [assumption | now split]. }
    destruct (dict_get "application" items);
      [apply keys_dict_set; now right | assumption].
  - intros before k v after name Heq Hget Hne Hafter Hcomposite.
    assert (Hval : dict_get name (fold_left (add_condition condition_mapping)
                                            items []) = Some v).
    { rewrite Heq, fold_left_app. cbn [fold_left].
      rewrite fold_add_condition_untouched.
      - rewrite (add_condition_yields condition_mapping _ k v name)
          by (split; assumption).
        apply dict_get_set_same.
      - intros [k' v'] Hin [Hy _]. simpl in Hy. now apply (Hafter k' v'). }
    destruct (dict_get "application" items) eqn:Ea; [|assumption].
    rewrite dict_get_set_other; [assumption|].
    intros ->. specialize (Hcomposite eq_refl). discriminate.
  - intros k v name Hin Hget Hne Hagree Hcomposite.
    assert (Hval : dict_get name (fold_left (add_condition condition_mapping)
                                            items []) = Some v).
    { apply (fold_add_condition_value condition_mapping _ _ k);
        [assumption | now split |].
      intros k' v' Hin' [Hy _]. now apply (Hagree k'). }
    destruct (dict_get "application" items) eqn:Ea; [|assumption].
    rewrite dict_get_set_other; [assumption|].
    intros ->. specialize (Hcomposite eq_refl). discriminate.
  - intros v Ha. rewrite Ha. apply dict_get_set_same.
  - intros -> Hnone. cbn. rewrite Hnone. reflexivity.
Qed.

Ltac dict_get_literal :=
repeat first
  [ rewrite dict_get_set_same
  | rewrite dict_get_set_other by discriminate ].

(** C9.  Enhancing an enhanced document changes nothing: the enhancer
  leaves [deployment_checklist] and [affected_resources] as they were,
  and run again on its own output it returns that output, so the
  recomputed [cloudformation_conditions], [has_affected_resources],
  [has_deployments] and [is_valid] are the values already there. *)
Theorem enhance_idempotent metadata condition_mapping enhanced :
prepare_change_metadata metadata condition_mapping = Some enhanced ->
dict_get "deployment_checklist" enhanced
= dict_get "deployment_checklist" metadata
/\ dict_get "affected_resources" enhanced
   = dict_get "affected_resources" metadata
/\ exists again,
    prepare_change_metadata enhanced condition_mapping = Some again
    /\ dict_get "cloudformation_conditions" again
       = dict_get "cloudformation_conditions" enhanced
    /\ dict_get "has_affected_resources" again
       = dict_get "has_affected_resources" enhanced
    /\ dict_get "has_deployments" again
       = dict_get "has_deployments" enhanced
    /\ dict_get "is_valid" again = dict_get "is_valid" enhanced
    /\ again = enhanced.
Proof.
intros H. apply prepare_inv in H. destruct H as (items & n & Hdc & Hlen & ->).
match goal with |- context [dict_get "deployment_checklist" ?e = _] =>
  set (out := e) end.
assert (Hdc' : dict_get "deployment_checklist" out
               = dict_get "deployment_checklist" metadata).
{ unfold out. now dict_get_literal. }
assert (Har' : dict_get "affected_resources" out
               = dict_get "affected_resources" metadata).
{ unfold out. now dict_get_literal. }
split; [exact Hdc'|]. split; [exact Har'|].
exists out.
assert (Hagain : prepare_change_metadata out condition_mapping = Some out).
{ unfold prepare_change_metadata, dict_get_default in *.
  rewrite Hdc', Har', Hdc, Hlen. cbn [py_items py_values bind ret].
  apply (f_equal Some).
  rewrite (dict_set_same_id "cloudformation_conditions")
    by (unfold out; now dict_get_literal).
  rewrite (dict_set_same_id "metadata_version")
    by (unfold out; now dict_get_literal).
  rewrite (dict_set_same_id "enhanced")
    by (unfold out; now dict_get_literal).
  rewrite (dict_set_same_id "has_affected_resources")
    by (unfold out; now dict_get_literal).
  rewrite (dict_set_same_id "has_deployments")
    by (unfold out; now dict_get_literal).
  apply dict_set_same_id. unfold out. now dict_get_literal. }
repeat split; try reflexivity. exact Hagain.
Qed.

(** The enhancer returns a document whenever the checklist is a dict (or
  absent) and [affected_resources] has a length. *)
Lemma prepare_total metadata condition_mapping items n :
dict_get_default "deployment_checklist" (JObj []) metadata = JObj items ->
py_len (dict_get_default "affected_resources" (JArr []) metadata) = Some n ->
exists enhanced,
  prepare_change_metadata metadata condition_mapping = Some enhanced.
Proof.
intros Hdc Hlen. unfold prepare_change_metadata. rewrite Hdc, Hlen.
cbn [py_items py_values bind ret]. eauto.
Qed.

End EnhancerFacts.

(** ** The scenarios, evaluated *)

Module Scenarios.
Import Detector Enhancer Validator Instances.
Import DetectorFacts ValidatorFacts EnhancerFacts PipelineFacts.

(** Scenario A: a file matching a mapping with target [all] gives one
  resource entry, sets every checklist key, collects the actions of the
  mapping, and passes validation without errors or warnings. *)
Example scenario_all_target :
let md := run_change_detection fnmatch_posix "config.yaml" "main" "HEAD"
            lambda_config ["lambda/index.py"; "README.md"] in
cm_affected_resources md
= [resource_entry "lambda/index.py" "app-lambda" lambda_mapping]
/\ cm_deployment_checklist md = [("application", true); ("network", true)]
/\ cm_required_actions md = ["build"; "deploy"]
/\ validate_change_impact format_scalar (to_document md) true
   = Some (true, [], []).
Proof. vm_compute. repeat split; reflexivity. Qed.

(** C1, as stated, fails: a matched mapping whose target stack is not a
  configured checklist key adds that stack to the checklist. *)
Lemma unknown_stack_adds_key :
let md := run_change_detection fnmatch_posix "config.yaml" "main" "HEAD"
            network_config ["vpc.yaml"] in
keys (deployment_checklist_config network_config) = ["application"]
/\ cm_deployment_checklist md = [("application", false); ("network", true)]
/\ keys (cm_deployment_checklist md)
   <> keys (deployment_checklist_config network_config).
Proof. vm_compute. repeat split; try reflexivity. discriminate. Qed.

(** C2, as stated, fails: the mapping has an entry for [application], the
  empty name, and no condition is set for it. *)
Lemma empty_name_produces_no_condition :
dict_mem "application" empty_name_mapping = true
/\ dict_get "application" empty_name_mapping = Some ""
/\ build_conditions empty_name_mapping application_checklist
   = [("DeployApplicationStack", JBool true)]
/\ dict_get "" (build_conditions empty_name_mapping application_checklist)
   <> Some (JBool true)
/\ (enhanced <- prepare_change_metadata application_metadata
                                        empty_name_mapping ;;
    ret (dict_get "cloudformation_conditions" enhanced))
   = Some (Some (JObj [("DeployApplicationStack", JBool true)])).
Proof. vm_compute. repeat split; try reflexivity. discriminate. Qed.

(** Scenario B under C3: warnings alone fail the strict run only. *)
Lemma validate_verdict_witness :
validate_change_impact format_scalar unclassified_metadata false
= Some (true, [], [msg_no_affected_resources 1])
/\ ((true = true <->
     @nil string = [] /\ (false = false \/ [msg_no_affected_resources 1] = []))
    /\ (false = false -> @nil string = [] -> true = true)).
Proof.
split; [reflexivity|].
apply (validate_verdict format_scalar unclassified_metadata false true []
                        [msg_no_affected_resources 1]).
reflexivity.
Defined.

(** C8 on a document whose later checks would all raise. *)
Lemma structural_gate_witness :
validate_change_impact format_scalar truncated_metadata true
= Some (false,
        (if dict_mem "affected_resources" truncated_metadata then []
         else [msg_missing_affected_resources])
        ++ (if dict_mem "deployment_checklist" truncated_metadata then []
            else [msg_missing_deployment_checklist]),
        []).
Proof.
apply (structural_gate format_scalar truncated_metadata true).
right. reflexivity.
Defined.

(** Scenario C under C4. *)
Lemma critical_without_actions_witness :
validate_change_impact format_scalar critical_metadata false
= Some (false, [msg_critical 1], [])
/\ ((forall ok errors warnings,
        validate_change_impact format_scalar critical_metadata false
        = Some (ok, errors, warnings) ->
        ok = false
        /\ (exists n, 0 < n /\ In (msg_critical n) errors)
        /\ (forall n, ~ In (msg_critical n) warnings))
    /\ (well_typed critical_metadata = true ->
        exists errors warnings,
          validate_change_impact format_scalar critical_metadata false
          = Some (false, errors, warnings))).
Proof.
split; [reflexivity|].
apply (critical_without_actions format_scalar critical_metadata false
                                [JObj critical_entry] critical_entry).
- reflexivity.
- reflexivity.
- left. reflexivity.
- reflexivity.
- reflexivity.
Defined.

(** C9 on the document of scenario D. *)
Lemma enhance_idempotent_witness :
exists enhanced,
  prepare_change_metadata application_metadata
                          [("application", "DeployApplication")]
  = Some enhanced
  /\ dict_get "deployment_checklist" enhanced
     = dict_get "deployment_checklist" application_metadata
  /\ dict_get "affected_resources" enhanced
     = dict_get "affected_resources" application_metadata
  /\ exists again,
      prepare_change_metadata enhanced [("application", "DeployApplication")]
      = Some again
      /\ dict_get "cloudformation_conditions" again
         = dict_get "cloudformation_conditions" enhanced
      /\ dict_get "has_affected_resources" again
         = dict_get "has_affected_resources" enhanced
      /\ dict_get "has_deployments" again
         = dict_get "has_deployments" enhanced
      /\ dict_get "is_valid" again = dict_get "is_valid" enhanced
      /\ again = enhanced.
Proof.
eexists. split; [reflexivity|].
apply (enhance_idempotent application_metadata
                          [("application", "DeployApplication")]).
reflexivity.
Defined.

(** C2 on two checklist keys that share a condition name: the later key
    decides. *)
Lemma conditions_built_witness :
  exists enhanced,
    prepare_change_metadata shared_name_metadata shared_name_mapping
    = Some enhanced
    /\ dict_get "cloudformation_conditions" enhanced
       = Some (JObj [("Deploy", JBool false)])
    /\
  exists deployment_checklist conditions,
      dict_get_default "deployment_checklist" (JObj []) shared_name_metadata
      = JObj deployment_checklist
      /\ dict_get "cloudformation_conditions" enhanced = Some (JObj conditions)
      /\ conditions
         = add_composite deployment_checklist
             (fold_left (add_condition shared_name_mapping) deployment_checklist [])
      /\ (forall name v,
             dict_get name conditions = Some v ->
             (name = "DeployApplicationStack" /\
              dict_get "application" deployment_checklist = Some v)
             \/ (exists k, In (k, v) deployment_checklist /\
                           dict_get k shared_name_mapping = Some name /\
                           name <> ""))
      /\ (forall k v name,
             In (k, v) deployment_checklist ->
             dict_get k shared_name_mapping = Some name -> name <> "" ->
             In name (keys conditions))
      /\ (forall before k v after name,
             deployment_checklist = before ++ (k, v) :: after ->
             dict_get k shared_name_mapping = Some name -> name <> "" ->
             (forall k' v', In (k', v') after ->
                            dict_get k' shared_name_mapping <> Some name) ->
             (name = "DeployApplicationStack" ->
              dict_mem "application" deployment_checklist = false) ->
             dict_get name conditions = Some v)
      /\ (forall k v name,
             In (k, v) deployment_checklist ->
             dict_get k shared_name_mapping = Some name -> name <> "" ->
             (forall k' v', In (k', v') deployment_checklist ->
                            dict_get k' shared_name_mapping = Some name -> v' = v) ->
             (name = "DeployApplicationStack" ->
              dict_mem "application" deployment_checklist = false) ->
             dict_get name conditions = Some v)
      /\ (forall v,
             dict_get "application" deployment_checklist = Some v ->
             dict_get "DeployApplicationStack" conditions = Some v)
      /\ (deployment_checklist = [("application", JBool true)] ->
          dict_get "application" shared_name_mapping = None ->
          conditions = [("DeployApplicationStack", JBool true)]).
Proof.
  eexists. split; [reflexivity|]. split; [reflexivity|].
  apply (conditions_built shared_name_metadata shared_name_mapping).
  reflexivity.
Defined.

End Scenarios.

(** ** The changed-file list *)

Module DiffFacts.
Import Diff.

(** *** Strings *)

Lemma string_app_assoc (a b c : string) : ((a ++ b) ++ c)%string = (a ++ (b ++ c))%string.
Proof. induction a as [|x a IH]; simpl; [reflexivity | now rewrite IH]. Qed.

Lemma string_app_length (a b : string) :
  String.length (a ++ b) = String.length a + String.length b.
Proof. induction a as [|x a IH]; simpl; [reflexivity | now rewrite IH]. Qed.

Lemma string_length_zero (s : string) : String.length s = 0 -> s = EmptyString.
Proof. destruct s; [reflexivity | discriminate]. Qed.

(** *** Stripping *)

Lemma lstrip_step s :
  lstrip s = match space_prefix s with Some rest => lstrip rest | None => s end.
Proof.
  destruct s as [|c1 [|c2 [|c3 r3]]]; cbn [lstrip space_prefix];
    try reflexivity;
    destruct (space1 c1); try reflexivity;
    destruct (space2 c1 c2); try reflexivity;
    destruct (space3 c1 c2 c3); reflexivity.
Qed.

Lemma space_prefix_split s rest :
  space_prefix s = Some rest ->
  exists w, s = (w ++ rest)%string /\ w <> EmptyString.
Proof.
  destruct s as [|c1 r1]; simpl; [discriminate|].
  destruct (space1 c1).
  - intros H. inversion H. exists (String c1 EmptyString).
    split; [reflexivity | discriminate].
  - destruct r1 as [|c2 r2]; [discriminate|].
    destruct (space2 c1 c2).
    + intros H. inversion H. exists (String c1 (String c2 EmptyString)).
      split; [reflexivity | discriminate].
    + destruct r2 as [|c3 r3]; [discriminate|].
      destruct (space3 c1 c2 c3); [|discriminate].
      intros H. inversion H.
      exists (String c1 (String c2 (String c3 EmptyString))).
      split; [reflexivity | discriminate].
Qed.

Lemma space_prefix_app p rest w :
  space_prefix p = Some rest ->
  space_prefix (p ++ w) = Some (rest ++ w)%string.
Proof.
  destruct p as [|c1 r1]; simpl; [discriminate|].
  destruct (space1 c1); [intros H; now inversion H|].
  destruct r1 as [|c2 r2]; simpl; [discriminate|].
  destruct (space2 c1 c2); [intros H; now inversion H|].
  destruct r2 as [|c3 r3]; simpl; [discriminate|].
  destruct (space3 c1 c2 c3); [intros H; now inversion H | discriminate].
Qed.

Lemma space_prefix_shorter s rest :
  space_prefix s = Some rest -> String.length rest < String.length s.
Proof.
  intros H. apply space_prefix_split in H. destruct H as (w & -> & Hw).
  rewrite string_app_length. destruct w; [contradiction | simpl; lia].
Qed.

(** [lstrip] returns a suffix that starts with no white space. *)
Lemma lstrip_spec_bounded n : forall s,
  String.length s <= n ->
  space_prefix (lstrip s) = None /\ exists w, s = (w ++ lstrip s)%string.
Proof.
  induction n as [|n IH]; intros s Hlen.
  - apply Nat.le_0_r, string_length_zero in Hlen. subst s. simpl.
    split; [reflexivity | now exists EmptyString].
  - rewrite lstrip_step. destruct (space_prefix s) as [rest|] eqn:E.
    + pose proof (space_prefix_shorter s rest E) as Hshort.
      destruct (IH rest) as (Hnone & w' & Hw'); [lia|].
      split; [exact Hnone|].
      apply space_prefix_split in E. destruct E as (w & Hs & _).
      exists (w ++ w')%string. rewrite string_app_assoc, <- Hw'. exact Hs.
    + split; [exact E | now exists EmptyString].
Qed.

Lemma lstrip_no_space s : space_prefix (lstrip s) = None.
Proof. now apply (lstrip_spec_bounded (String.length s)). Qed.

Lemma lstrip_suffix s : exists w, s = (w ++ lstrip s)%string.
Proof. now apply (lstrip_spec_bounded (String.length s)). Qed.

Lemma lstrip_fixed s : space_prefix s = None -> lstrip s = s.
Proof. intros H. now rewrite lstrip_step, H. Qed.

(** White space at the start of a text is consumed before what follows. *)
Lemma lstrip_app_bounded n : forall p w,
  String.length p <= n ->
  lstrip p = EmptyString -> lstrip (p ++ w) = lstrip w.
Proof.
  induction n as [|n IH]; intros p w Hlen Hp.
  - apply Nat.le_0_r, string_length_zero in Hlen. now subst p.
  - rewrite lstrip_step in Hp.
    destruct (space_prefix p) as [rest|] eqn:E.
    + rewrite (lstrip_step (p ++ w)), (space_prefix_app p rest w E).
      apply IH; [|exact Hp].
      pose proof (space_prefix_shorter p rest E). lia.
    + now subst p.
Qed.

Lemma lstrip_app p w : lstrip p = EmptyString -> lstrip (p ++ w) = lstrip w.
Proof. now apply (lstrip_app_bounded (String.length p)). Qed.

Lemma rstrip_step c rest :
  rstrip (String c rest)
  = if String.eqb (lstrip (String c rest)) EmptyString then EmptyString
    else String c (rstrip rest).
Proof. reflexivity. Qed.

(** [rstrip] returns a prefix, and what it cuts off is white space. *)
Lemma rstrip_prefix s :
  exists w, s = (rstrip s ++ w)%string /\ lstrip w = EmptyString.
Proof.
  induction s as [|c rest IH]; [now exists EmptyString|].
  rewrite rstrip_step.
  destruct (String.eqb (lstrip (String c rest)) EmptyString) eqn:E.
  - apply String.eqb_eq in E. now exists (String c rest).
  - destruct IH as (w & Hw & Hspace). exists w.
    split; [simpl; now rewrite <- Hw | exact Hspace].
Qed.

Lemma lstrip_rstrip_empty s :
  lstrip (rstrip s) = EmptyString -> lstrip s = EmptyString.
Proof.
  intros H. destruct (rstrip_prefix s) as (w & Hs & Hw).
  rewrite Hs, (lstrip_app _ w H). exact Hw.
Qed.

Lemma rstrip_idem s : rstrip (rstrip s) = rstrip s.
Proof.
  induction s as [|c rest IH]; [reflexivity|].
  destruct (String.eqb (lstrip (String c rest)) EmptyString) eqn:E.
  - rewrite rstrip_step, E. reflexivity.
  - assert (Hr : rstrip (String c rest) = String c (rstrip rest))
      by (rewrite rstrip_step, E; reflexivity).
    rewrite Hr, rstrip_step, IH.
    destruct (String.eqb (lstrip (String c (rstrip rest))) EmptyString) eqn:E';
      [|reflexivity].
    apply String.eqb_eq in E'. rewrite <- Hr in E'.
    apply lstrip_rstrip_empty, String.eqb_eq in E'. congruence.
Qed.

Lemma rstrip_no_space s :
  space_prefix s = None -> space_prefix (rstrip s) = None.
Proof.
  intros H. destruct (rstrip_prefix s) as (w & Hs & _).
  destruct (space_prefix (rstrip s)) as [rest|] eqn:E; [|reflexivity].
  apply (space_prefix_app _ _ w) in E. rewrite <- Hs in E. congruence.
Qed.

(** Nothing is left at the end that [rstrip] would cut. *)
Lemma rstrip_cut p : forall w,
  lstrip w = EmptyString ->
  String.length (rstrip (p ++ w)) <= String.length p.
Proof.
  induction p as [|c p IH]; intros w Hw.
  - simpl. destruct w as [|c w]; [simpl; lia|].
    rewrite rstrip_step, Hw. simpl. lia.
  - change (String c p ++ w)%string with (String c (p ++ w)).
    rewrite rstrip_step.
    destruct (String.eqb (lstrip (String c (p ++ w))) EmptyString);
      simpl; [lia|].
    specialize (IH w Hw). lia.
Qed.

Lemma rstrip_fixed_no_tail f p w :
  rstrip f = f -> f = (p ++ w)%string -> lstrip w = EmptyString ->
  w = EmptyString.
Proof.
  intros Hf Heq Hw. pose proof (rstrip_cut p w Hw) as Hcut.
  rewrite <- Heq, Hf, Heq, string_app_length in Hcut.
  apply string_length_zero. lia.
Qed.

Lemma strip_idem s : strip (strip s) = strip s.
Proof.
  unfold strip.
  rewrite (lstrip_fixed (rstrip (lstrip s)))
    by (apply rstrip_no_space, lstrip_no_space).
  apply rstrip_idem.
Qed.

(** *** Line feeds *)

Lemma no_newline_app a b :
  no_newline (a ++ b) = no_newline a && no_newline b.
Proof.
  induction a as [|c a IH]; simpl; [reflexivity|].
  now rewrite IH, andb_assoc.
Qed.

Lemma strip_no_newline s : no_newline s = true -> no_newline (strip s) = true.
Proof.
  intros H. unfold strip.
  destruct (lstrip_suffix s) as (w & Hw).
  destruct (rstrip_prefix (lstrip s)) as (w' & Hw' & _).
  rewrite Hw, Hw', !no_newline_app in H.
  apply andb_prop in H. destruct H as [_ H].
  apply andb_prop in H. now destruct H.
Qed.

Lemma split_lines_no_newline s :
  Forall (fun piece => no_newline piece = true) (split_lines s).
Proof.
  induction s as [|c s IH]; simpl; [repeat constructor|].
  destruct (Ascii.eqb c newline) eqn:E.
  - constructor; [reflexivity | exact IH].
  - destruct (split_lines s) as [|piece pieces];
      [repeat constructor; simpl; now rewrite E|].
    inversion IH as [|? ? Hp Hps]. subst.
    constructor; [simpl; now rewrite E, Hp | exact Hps].
Qed.

Lemma split_lines_line f rest :
  no_newline f = true ->
  split_lines (f ++ String newline rest) = f :: split_lines rest.
Proof.
  induction f as [|c f IH]; simpl; intros H.
  - reflexivity.
  - apply andb_prop in H. destruct H as [Hc Hf].
    apply negb_true_iff in Hc. rewrite Hc, (IH Hf). reflexivity.
Qed.

Lemma clean_path_inv f :
  clean_path f = true ->
  f <> EmptyString /\ strip f = f /\ no_newline f = true.
Proof.
  unfold clean_path. intros H.
  apply andb_prop in H. destruct H as [H Hn].
  apply andb_prop in H. destruct H as [He Hs].
  apply negb_true_iff, String.eqb_neq in He. apply String.eqb_eq in Hs. auto.
Qed.

(** X1.  The paths [get_changed_files] returns are the stripped lines of
    the diff output whose stripped form is not empty, in order, and none
    when the diff failed.  Each of them is not empty, starts with no
    white-space character, ends with none (no tail of it is a run of white
    space), contains no line feed, and is left as it is by [strip]. *)
Theorem changed_files_clean (diff : option string) :
  Forall (fun f =>
            f <> EmptyString
            /\ space_prefix f = None
            /\ (forall p w, f = (p ++ w)%string -> lstrip w = EmptyString ->
                            w = EmptyString)
            /\ no_newline f = true
            /\ strip f = f)
         (get_changed_files diff)
  /\ get_changed_files None = []
  /\ (forall stdout f,
         In f (get_changed_files (Some stdout)) <->
         exists line,
           In line (split_lines stdout) /\ strip line = f /\
           f <> EmptyString).
Proof.
  split; [|split; [reflexivity|]].
  - destruct diff as [stdout|]; simpl; [|constructor].
    unfold parse_diff_output. apply Forall_forall. intros f Hin.
    apply in_map_iff in Hin. destruct Hin as (g & <- & Hg).
    apply filter_In in Hg. destruct Hg as [Hg Hne].
    apply negb_true_iff, String.eqb_neq in Hne.
    split; [exact Hne|]. split; [|split; [|split]].
    + unfold strip. apply rstrip_no_space, lstrip_no_space.
    + intros p w Heq Hw. apply (rstrip_fixed_no_tail (strip g) p w);
        [|assumption|assumption].
      unfold strip. apply rstrip_idem.
    + apply strip_no_newline.
      pose proof (split_lines_no_newline stdout) as Hall.
      rewrite Forall_forall in Hall. now apply Hall.
    + apply strip_idem.
  - intros stdout f. simpl. unfold parse_diff_output.
    rewrite in_map_iff. split.
    + intros (line & <- & Hline). apply filter_In in Hline.
      destruct Hline as [Hin Hne].
      apply negb_true_iff, String.eqb_neq in Hne. now exists line.
    + intros (line & Hin & <- & Hne). exists line. split; [reflexivity|].
      apply filter_In. split; [assumption|].
      now apply negb_true_iff, String.eqb_neq.
Qed.

(** X2.  Round trip with the diff listing: when the diff prints clean
    paths (not empty, unchanged by [strip], without line feed) one per line,
    each followed by a line feed, [get_changed_files] returns exactly those
    paths in the same order. *)
Theorem changed_files_round_trip (files : list string) :
  forallb clean_path files = true ->
  get_changed_files (Some (diff_output files)) = files.
Proof.
  simpl. unfold parse_diff_output.
  induction files as [|f files IH]; simpl; intros H; [reflexivity|].
  apply andb_prop in H. destruct H as [Hf Hfs].
  destruct (clean_path_inv f Hf) as (Hne & Hs & Hn).
  rewrite (split_lines_line f _ Hn). simpl. rewrite Hs.
  apply String.eqb_neq in Hne. rewrite Hne. simpl. rewrite Hs.
  f_equal. now apply IH.
Qed.

End DiffFacts.

(** ** The validation runner *)

Module RunnerFacts.
Import Validator Runner ValidatorFacts.

Section RunFacts.
Variable format_value : json -> string.

Lemma failure_not_success exit_on_error : failure exit_on_error <> Returned 0.
Proof. destruct exit_on_error; discriminate. Qed.

(** The two ends of [run_validation]. *)
Lemma run_validation_cases md strict exit_on_error :
  (run_validation format_value md strict exit_on_error = Returned 0 /\
   exists errors warnings,
     validate_change_impact format_value md strict
     = Some (true, errors, warnings))
  \/ (run_validation format_value md strict exit_on_error
      = failure exit_on_error /\
      forall errors warnings,
        validate_change_impact format_value md strict
        <> Some (true, errors, warnings)).
Proof.
  unfold run_validation.
  destruct (validate_change_impact format_value md strict)
    as [[[ok errors] warnings]|] eqn:Ev.
  - apply validate_inv in Ev.
    destruct Ev as [(Hne & -> & -> & ->) | (_ & Hv)].
    + right. destruct (check_structure md []) as [|e es]; [contradiction|].
      simpl. split; [reflexivity | intros ? ?; discriminate].
    + cbv zeta in Hv. destruct Hv as (_ & _ & _ & _ & _ & _ & _ & _ & ->).
      destruct errors, warnings, strict; simpl;
        try (left; split; [reflexivity | eauto]);
        right; (split; [reflexivity | intros ? ?; discriminate]).
  - right. split; [reflexivity | intros ? ?; discriminate].
Qed.

(** X3.  [run_validation] ends in one of two ways: it returns 0, exactly
    when the validation returned a verdict that is true, or it fails with
    status 1, by [sys.exit] when [exit_on_error] is set and by returning
    otherwise; in particular an exception of the validation counts as a
    failure, and without [exit_on_error] the call always returns. *)
Theorem run_validation_status md strict exit_on_error :
  (run_validation format_value md strict exit_on_error = Returned 0 <->
   exists errors warnings,
     validate_change_impact format_value md strict
     = Some (true, errors, warnings))
  /\ (run_validation format_value md strict exit_on_error = Returned 0 \/
      run_validation format_value md strict exit_on_error
      = (if exit_on_error then Exited 1 else Returned 1))
  /\ (validate_change_impact format_value md strict = None ->
      run_validation format_value md strict exit_on_error
      = (if exit_on_error then Exited 1 else Returned 1))
  /\ (exists code,
         run_validation format_value md strict false = Returned code).
Proof.
  split; [|split; [|split]].
  - destruct (run_validation_cases md strict exit_on_error)
      as [(Hr & Hv) | (Hr & Hv)].
    + tauto.
    + split.
      * intros H. rewrite Hr in H. now apply failure_not_success in H.
      * intros (e & w & H). now apply Hv in H.
  - destruct (run_validation_cases md strict exit_on_error)
      as [(Hr & _) | (Hr & _)]; [now left | now right].
  - intros H. unfold run_validation. now rewrite H.
  - destruct (run_validation_cases md strict false) as [(Hr & _) | (Hr & _)];
      rewrite Hr; simpl; eauto.
Qed.

(** X4.  The status of the validation script is 0 when the validation
    returned a true verdict and 1 otherwise; it is never 2, also for warnings
    in strict mode, and the [--no-exit] option does not change it. *)
Theorem main_exit_status md strict no_exit :
  (main format_value md strict no_exit = 0%Z <->
   exists errors warnings,
     validate_change_impact format_value md strict
     = Some (true, errors, warnings))
  /\ (main format_value md strict no_exit = 0%Z \/
      main format_value md strict no_exit = 1%Z)
  /\ main format_value md strict no_exit
     = main format_value md strict (negb no_exit).
Proof.
  unfold main.
  destruct (run_validation_cases md strict (negb no_exit))
    as [(Hr & Hv) | (Hr & Hv)];
    destruct (run_validation_cases md strict (negb (negb no_exit)))
      as [(Hr' & Hv') | (Hr' & Hv')];
    rewrite Hr, Hr'.
  - split; [tauto|]. split; [now left | reflexivity].
  - destruct Hv as (e & w & Hv). now apply Hv' in Hv.
  - destruct Hv' as (e & w & Hv'). now apply Hv in Hv'.
  - split; [|split].
    + split.
      * destruct no_exit; discriminate.
      * intros (e & w & H). now apply Hv in H.
    + right. now destruct no_exit.
    + now destruct no_exit.
Qed.

End RunFacts.

End RunnerFacts.

(** ** More on the Impact Validator *)

Module ValidatorExtras.
Import Validator ValidatorFacts.

Section ValidateExtras.
Variable format_value : json -> string.

Lemma critical_resources_nondict rs r :
  In r rs -> is_dict r = false -> critical_resources rs = None.
Proof.
  induction rs as [|r0 rs IH]; simpl; intros Hin Hr; [contradiction|].
  destruct Hin as [->|Hin].
  - destruct r; try reflexivity. discriminate.
  - destruct (py_get r0 "impact_level" JNull); [|reflexivity]. simpl.
    now rewrite (IH Hin Hr).
Qed.

(** X5.  A resource entry that is not a dict makes the validation raise:
    when both required fields are present and [affected_resources] is a list
    with such an entry, no verdict is returned, in either mode. *)
Theorem nondict_resource_raises md strict rs r :
  dict_get "affected_resources" md = Some (JArr rs) ->
  dict_mem "deployment_checklist" md = true ->
  In r rs -> is_dict r = false ->
  validate_change_impact format_value md strict = None.
Proof.
  intros Har Hdc Hin Hr.
  destruct (validate_change_impact format_value md strict)
    as [[[ok errors] warnings]|] eqn:Ev; [|reflexivity].
  exfalso. apply validate_inv in Ev.
  destruct Ev as [(Hne & _) | (_ & Hv)].
  - apply Hne. apply check_structure_nil. split; [|assumption].
    unfold dict_mem. now rewrite Har.
  - cbv zeta in Hv. unfold dict_get_default in Hv at 1 2 3 4 5.
    rewrite Har in Hv. simpl in Hv.
    destruct Hv as (w1 & e1 & rs' & _ & _ & Hrs & _ & Hcrit & _).
    inversion Hrs; subst rs'. unfold check_critical in Hcrit.
    rewrite (critical_resources_nondict rs r Hin Hr) in Hcrit. discriminate.
Qed.

(** X6.  Strict mode changes the verdict only: if the validation returns
    under one mode it returns under the other with the same errors and the
    same warnings, and a verdict that is true under some mode is true
    without strict mode. *)
Theorem strict_changes_verdict_only md strict strict' ok errors warnings :
  validate_change_impact format_value md strict = Some (ok, errors, warnings) ->
  exists ok',
    validate_change_impact format_value md strict'
    = Some (ok', errors, warnings)
    /\ (strict' = false -> ok = true -> ok' = true).
Proof.
  unfold validate_change_impact.
  destruct (negb (Nat.eqb (List.length (check_structure md [])) 0)).
  - intros H. inversion H. subst. eexists. split; [reflexivity|].
    intros _ Hf. discriminate.
  - destruct (check_coverage _ _ []) as [w1|]; [|intros H; simpl in H; discriminate H];
      cbn [bind]; cbv zeta.
    destruct (check_checklist
                (dict_get_default "affected_resources" (JArr []) md)
                (dict_get_default "deployment_checklist" (JObj []) md)
                (check_structure md []))
      as [e1|]; [|intros H; simpl in H; discriminate H]; cbn [bind]; cbv zeta.
    destruct (py_iter (dict_get_default "affected_resources" (JArr []) md))
      as [rs|]; [|intros H; simpl in H; discriminate H]; cbn [bind]; cbv zeta.
    destruct (check_resources format_value rs _) as [w2|]; [|intros H; simpl in H; discriminate H];
      cbn [bind]; cbv zeta.
    destruct (check_critical md rs e1) as [e2|]; [|intros H; simpl in H; discriminate H];
      cbn [bind]; cbv zeta.
    unfold ret. intros H. inversion H. subst. eexists. split; [reflexivity|].
    intros -> Hok. apply andb_prop in Hok. destruct Hok as [-> _]. reflexivity.
Qed.

(** X7.  Without affected resources there is never an error: when
    [affected_resources] is the empty list, the checklist field is present
    (whatever it holds) and [changed_files] is a list, the validation returns
    no error, and its only warning is the coverage warning, raised exactly
    when files changed; so the verdict is false only in strict mode with
    changed files. *)
Theorem no_resources_no_errors md strict files :
  dict_get "affected_resources" md = Some (JArr []) ->
  dict_mem "deployment_checklist" md = true ->
  dict_get_default "changed_files" (JArr []) md = JArr files ->
  validate_change_impact format_value md strict
  = Some (negb strict || Nat.eqb (List.length files) 0,
          [],
          if Nat.eqb (List.length files) 0 then []
          else [msg_no_affected_resources (List.length files)]).
Proof.
  intros Har Hdc Hcf. unfold validate_change_impact.
  assert (Hs : check_structure md [] = []).
  { apply check_structure_nil. split; [|assumption].
    unfold dict_mem. now rewrite Har. }
  rewrite Hs, Hcf. cbn [List.length Nat.eqb negb].
  assert (Har' : dict_get_default "affected_resources" (JArr []) md = JArr []).
  { unfold dict_get_default. now rewrite Har. }
  unfold check_enhanced, check_critical. rewrite Har'.
  cbn [truthy]. rewrite andb_false_r.
  destruct files as [|f files]; cbn.
  - destruct (truthy (dict_get_default "enhanced" JNull md));
      cbn; now rewrite orb_true_r.
  - destruct (truthy (dict_get_default "enhanced" JNull md));
      cbn; now rewrite orb_false_r.
Qed.

End ValidateExtras.

End ValidatorExtras.

(** ** More on the Change Detector *)

Module DetectorExtras.
Import Detector DetectorFacts.

Lemma set_add_In x y s : In x (set_add y s) <-> x = y \/ In x s.
Proof.
  unfold set_add. destruct (existsb (String.eqb y) s) eqn:E.
  - split; [tauto|]. intros [->|H]; [|assumption].
    apply existsb_exists in E. destruct E as (z & Hz & Heq).
    apply String.eqb_eq in Heq. now subst.
  - rewrite in_app_iff. simpl. intuition.
Qed.

Lemma set_add_NoDup y s : NoDup s -> NoDup (set_add y s).
Proof.
  intros H. unfold set_add. destruct (existsb (String.eqb y) s) eqn:E;
    [assumption|].
  apply NoDup_app; [assumption | repeat constructor; tauto |].
  intros x Hx [Heq|[]]. subst x.
  assert (Hex : existsb (String.eqb y) s = true).
  { apply existsb_exists. exists y. split; [assumption | apply String.eqb_refl]. }
  congruence.
Qed.

Lemma set_update_In x xs : forall s,
  In x (set_update xs s) <-> In x xs \/ In x s.
Proof.
  unfold set_update. induction xs as [|y xs IH]; simpl; intros s; [tauto|].
  rewrite IH, set_add_In. intuition.
Qed.

Lemma set_update_NoDup xs : forall s, NoDup s -> NoDup (set_update xs s).
Proof.
  unfold set_update. induction xs as [|y xs IH]; simpl; intros s H;
    [assumption|].
  apply IH. now apply set_add_NoDup.
Qed.

Lemma fold_apply_pair_mappings ps : forall md,
  (forall k, In k (cm_affected_mappings (fold_left apply_pair ps md)) <->
             In k (cm_affected_mappings md) \/
             exists p, In p ps /\ fst (snd p) = k)
  /\ (NoDup (cm_affected_mappings md) ->
      NoDup (cm_affected_mappings (fold_left apply_pair ps md))).
Proof.
  induction ps as [|[f [key mc]] ps IH]; simpl; intros md.
  - split; [|auto]. intros k. split; [tauto|].
    intros [H|(p & [] & _)]. assumption.
  - destruct (IH (apply_pair md (f, (key, mc)))) as [IHin IHnd].
    split.
    + intros k. rewrite IHin. simpl. rewrite set_add_In. split.
      * intros [[->|H]|(p & Hp & Hk)].
        -- right. exists (f, (key, mc)). auto.
        -- now left.
        -- right. exists p. auto.
      * intros [H|(p & [<-|Hp] & Hk)].
        -- left. now right.
        -- left. left. now rewrite <- Hk.
        -- right. exists p. auto.
    + intros H. apply IHnd. simpl. now apply set_add_NoDup.
Qed.

Lemma fold_apply_pair_actions ps : forall md,
  (forall a, In a (cm_required_actions (fold_left apply_pair ps md)) <->
             In a (cm_required_actions md) \/
             exists p, In p ps /\ In a (required_actions (snd (snd p))))
  /\ (NoDup (cm_required_actions md) ->
      NoDup (cm_required_actions (fold_left apply_pair ps md))).
Proof.
  induction ps as [|[f [key mc]] ps IH]; simpl; intros md.
  - split; [|auto]. intros a. split; [tauto|].
    intros [H|(p & [] & _)]. assumption.
  - destruct (IH (apply_pair md (f, (key, mc)))) as [IHin IHnd].
    split.
    + intros a. rewrite IHin. simpl. rewrite set_update_In. split.
      * intros [[H|H]|(p & Hp & Ha)].
        -- right. exists (f, (key, mc)). auto.
        -- now left.
        -- right. exists p. auto.
      * intros [H|(p & [<-|Hp] & Ha)].
        -- left. now right.
        -- left. now left.
        -- right. exists p. auto.
    + intros H. apply IHnd. simpl. now apply set_update_NoDup.
Qed.

(** One checklist update, seen from a key that becomes true. *)
Lemma update_checklist_all (k : string) (d : dict bool) :
  In k (keys d) -> dict_get k (update_checklist (Some "all") d) = Some true.
Proof. simpl. apply set_all_true_get. Qed.

Lemma update_checklist_target (k : string) (d : dict bool) :
  k <> "all" -> k <> "" -> dict_get k (update_checklist (Some k) d) = Some true.
Proof.
  intros Hall Hempty. unfold update_checklist.
  apply String.eqb_neq in Hall. apply String.eqb_neq in Hempty.
  rewrite Hall, Hempty. simpl. apply dict_get_set_same.
Qed.

Lemma update_checklist_true_inv target (k : string) (d : dict bool) :
  dict_get k (update_checklist target d) = Some true ->
  dict_get k d = Some true
  \/ (target = Some "all" /\ In k (keys d))
  \/ (target = Some k /\ k <> "all" /\ k <> "").
Proof.
  unfold update_checklist. destruct target as [t|]; [|now left].
  destruct (String.eqb t "all") eqn:Eall.
  - apply String.eqb_eq in Eall. subst t. intros H.
    right. left. split; [reflexivity|].
    rewrite <- (keys_set_all_true d). apply dict_mem_keys.
    unfold dict_mem. now rewrite H.
  - apply String.eqb_neq in Eall.
    destruct (String.eqb t "") eqn:Eempty; simpl; [now left|].
    apply String.eqb_neq in Eempty. intros H.
    destruct (string_dec k t) as [->|Hne]; [right; right; auto|].
    rewrite dict_get_set_other in H by assumption. now left.
Qed.

Section DetectExtras.
Variable fnmatch : string -> string -> bool.

Lemma normalize_path_idem p : normalize_path (normalize_path p) = normalize_path p.
Proof.
  induction p as [|c p IH]; simpl; [reflexivity|]. rewrite IH.
  destruct (Ascii.eqb c "\"%char) eqn:E; [reflexivity | now rewrite E].
Qed.

(** When a flag is true after the updates of the pairs [ps]. *)
Lemma fold_update_true ps (k : string) : forall d : dict bool,
  dict_get k
    (fold_left (fun (d : dict bool) (p : string * (string * mapping_config)) =>
                  update_checklist (target_stack (snd (snd p))) d) ps d)
  = Some true <->
  dict_get k d = Some true
  \/ (In k (keys
              (fold_left
                 (fun (d : dict bool) (p : string * (string * mapping_config)) =>
                    update_checklist (target_stack (snd (snd p))) d) ps d)) /\
      exists p, In p ps /\ target_stack (snd (snd p)) = Some "all")
  \/ (exists p, In p ps /\ target_stack (snd (snd p)) = Some k
                /\ k <> "all" /\ k <> "").
Proof.
  induction ps as [|p ps IH]; cbn [fold_left]; intros d.
  - split; [now left|].
    intros [H|[(_ & q & [] & _)|(q & [] & _)]]. assumption.
  - rewrite IH. split.
    + intros [H|[(Hk & q & Hq & Hall)|(q & Hq & Ht)]].
      * apply update_checklist_true_inv in H.
        destruct H as [H|[(Ht & Hk)|Ht]].
        -- now left.
        -- right. left. split.
           ++ apply (keys_fold_update fnmatch). left. cbv beta.
              apply keys_update_checklist. now left.
           ++ exists p. split; [now left | assumption].
        -- right. right. exists p. split; [now left | assumption].
      * right. left. split; [assumption|]. exists q. split; [now right | assumption].
      * right. right. exists q. split; [now right | assumption].
    + intros [H|[(Hk & q & [<-|Hq] & Hall)|(q & [<-|Hq] & Ht)]].
      * left. now apply update_checklist_mono.
      * rewrite Hall.
        destruct (in_dec string_dec k (keys d)) as [Hin|Hnotin].
        -- left. now apply update_checklist_all.
        -- right. right.
           apply (keys_fold_update fnmatch) in Hk. destruct Hk as [Hk|Hk].
           ++ cbv beta in Hk. rewrite Hall in Hk.
              apply keys_update_checklist in Hk.
              destruct Hk as [Hk|(Hk & Hne & _)]; [contradiction|].
              inversion Hk. congruence.
           ++ exact Hk.
      * right. left. split; [assumption|]. exists q. auto.
      * left. destruct Ht as (-> & Hall & Hempty).
        now apply update_checklist_target.
      * right. right. exists q. auto.
Qed.

(** X8.  The mappings recorded in [affected_mappings] are exactly the keys
    of the mappings matched by some changed file that is not excluded, which
    are exactly the mapping names of the entries of [affected_resources];
    each is recorded once. *)
Theorem affected_mappings_matched
        config_path base_commit head_commit cfg changed :
  (forall k,
      In k (cm_affected_mappings
              (run_change_detection fnmatch config_path base_commit
                                    head_commit cfg changed))
      <->
      exists file_path mc,
        In file_path changed /\
        is_excluded fnmatch file_path (exclusion_patterns cfg) = false /\
        In (k, mc)
           (match_file_to_mapping fnmatch file_path (resource_mappings cfg)))
  /\ (forall k,
         In k (cm_affected_mappings
                 (run_change_detection fnmatch config_path base_commit
                                       head_commit cfg changed))
         <->
         exists e,
           In e (cm_affected_resources
                   (run_change_detection fnmatch config_path base_commit
                                         head_commit cfg changed)) /\
           py_get e "mapping" JNull = Some (JStr k))
  /\ NoDup (cm_affected_mappings
              (run_change_detection fnmatch config_path base_commit
                                    head_commit cfg changed)).
Proof.
  rewrite run_as_pairs, fold_apply_pair_resources.
  destruct (fold_apply_pair_mappings (matched_pairs fnmatch cfg changed)
              (initial_metadata config_path base_commit head_commit cfg changed))
    as [Hin Hnd].
  split; [|split].
  - intros k. rewrite Hin. simpl. split.
    + intros [[]|([f [key mc]] & Hp & Hk)]. simpl in Hk. subst key.
      apply matched_pairs_In in Hp. exists f, mc. tauto.
    + intros (f & mc & H). right. exists (f, (k, mc)).
      split; [now apply matched_pairs_In | reflexivity].
  - intros k. rewrite Hin. simpl. split.
    + intros [[]|(p & Hp & Hk)].
      exists (resource_entry (fst p) (fst (snd p)) (snd (snd p))). split.
      * apply in_map_iff. now exists p.
      * simpl. now rewrite Hk.
    + intros (e & He & Hm). right.
      apply in_map_iff in He. destruct He as (p & <- & Hp).
      exists p. split; [assumption|]. simpl in Hm. now inversion Hm.
  - apply Hnd. constructor.
Qed.

(** X9.  [required_actions] is the union of the required actions of the
    matched mappings: an action is recorded exactly when a mapping matched by
    some changed file that is not excluded requires it, and it is recorded
    once. *)
Theorem required_actions_union
        config_path base_commit head_commit cfg changed :
  (forall a,
      In a (cm_required_actions
              (run_change_detection fnmatch config_path base_commit
                                    head_commit cfg changed))
      <->
      exists file_path mapping_key mc,
        In file_path changed /\
        is_excluded fnmatch file_path (exclusion_patterns cfg) = false /\
        In (mapping_key, mc)
           (match_file_to_mapping fnmatch file_path (resource_mappings cfg)) /\
        In a (required_actions mc))
  /\ NoDup (cm_required_actions
              (run_change_detection fnmatch config_path base_commit
                                    head_commit cfg changed)).
Proof.
  rewrite run_as_pairs.
  destruct (fold_apply_pair_actions (matched_pairs fnmatch cfg changed)
              (initial_metadata config_path base_commit head_commit cfg changed))
    as [Hin Hnd].
  split.
  - intros a. rewrite Hin. simpl. split.
    + intros [[]|([f [key mc]] & Hp & Ha)]. simpl in Ha.
      apply matched_pairs_In in Hp. exists f, key, mc. tauto.
    + intros (f & key & mc & Hf & Hex & Hm & Ha). right.
      exists (f, (key, mc)). split; [now apply matched_pairs_In | exact Ha].
  - apply Hnd. constructor.
Qed.

(** X10.  A flag of the detector's checklist is true exactly when a matched
    mapping targets its stack by name, or the stack is a key of the
    checklist and some matched mapping targets ["all"]; every other flag is
    false. *)
Theorem checklist_flags config_path base_commit head_commit cfg changed k :
  let md := run_change_detection fnmatch config_path base_commit head_commit
                                 cfg changed in
  (dict_get k (cm_deployment_checklist md) = Some true <->
   (In k (keys (cm_deployment_checklist md)) /\
    exists file_path mapping_key mc,
      In file_path changed /\
      is_excluded fnmatch file_path (exclusion_patterns cfg) = false /\
      In (mapping_key, mc)
         (match_file_to_mapping fnmatch file_path (resource_mappings cfg)) /\
      target_stack mc = Some "all")
   \/ (exists file_path mapping_key mc,
          In file_path changed /\
          is_excluded fnmatch file_path (exclusion_patterns cfg) = false /\
          In (mapping_key, mc)
             (match_file_to_mapping fnmatch file_path (resource_mappings cfg)) /\
          target_stack mc = Some k /\ k <> "all" /\ k <> ""))
  /\ (In k (keys (cm_deployment_checklist md)) ->
      dict_get k (cm_deployment_checklist md) <> Some true ->
      dict_get k (cm_deployment_checklist md) = Some false).
Proof.
  cbv zeta. split.
  - rewrite run_as_pairs, fold_apply_pair_checklist.
    rewrite (fold_update_true (matched_pairs fnmatch cfg changed) k). simpl.
    split.
    + intros [H|[(Hk & [f [key mc]] & Hp & Ht)|([f [key mc]] & Hp & Ht)]].
      * apply dict_get_Some_In, initial_checklist_false in H. discriminate.
      * left. split; [assumption|]. apply matched_pairs_In in Hp.
        exists f, key, mc. simpl in Ht. tauto.
      * right. apply matched_pairs_In in Hp. exists f, key, mc.
        simpl in Ht. tauto.
    + intros [(Hk & f & key & mc & Hf & Hex & Hm & Ht)
             |(f & key & mc & Hf & Hex & Hm & Ht)].
      * right. left. split; [assumption|]. exists (f, (key, mc)).
        split; [now apply matched_pairs_In | exact Ht].
      * right. right. exists (f, (key, mc)).
        split; [now apply matched_pairs_In | exact Ht].
  - intros Hk Hnot. apply dict_mem_keys in Hk. unfold dict_mem in Hk.
    destruct (dict_get k _) as [[|]|]; [contradiction | reflexivity | discriminate].
Qed.

(** X11.  The entries of [affected_resources] come in the order of the
    changed files and, for one file, in the order in which the rule set
    declares its mappings: the list is, file by file, empty for an excluded
    file and otherwise one entry per mapping with a matching pattern; the
    list of changed files itself is passed on unchanged. *)
Theorem affected_resources_order
        config_path base_commit head_commit cfg changed :
  cm_affected_resources
    (run_change_detection fnmatch config_path base_commit head_commit cfg
                          changed)
  = flat_map
      (fun file_path =>
         if is_excluded fnmatch file_path (exclusion_patterns cfg) then []
         else map (fun m => resource_entry file_path (fst m) (snd m))
                  (filter (fun m => existsb (fnmatch (normalize_path file_path))
                                            (patterns (snd m)))
                          (resource_mappings cfg)))
      changed
  /\ cm_changed_files
       (run_change_detection fnmatch config_path base_commit head_commit cfg
                             changed)
     = changed.
Proof.
  split.
  - rewrite run_affected_resources. unfold matched_pairs.
    induction changed as [|f fs IH]; simpl; [reflexivity|].
    rewrite map_app, IH. f_equal.
    destruct (is_excluded fnmatch f (exclusion_patterns cfg)); [reflexivity|].
    rewrite map_map, match_file_to_mapping_filter. simpl.
    f_equal. apply filter_ext. intros m. apply any_pattern_matches_existsb.
  - rewrite run_as_pairs, fold_apply_pair_changed_files. reflexivity.
Qed.

(** X12.  Paths that differ only in the direction of their slashes are
    classified alike: two paths with the same normal form are excluded
    together and match the same mappings. *)
Theorem slash_direction_ignored file_path file_path' exclusions mappings :
  normalize_path file_path = normalize_path file_path' ->
  is_excluded fnmatch file_path exclusions
  = is_excluded fnmatch file_path' exclusions
  /\ match_file_to_mapping fnmatch file_path mappings
     = match_file_to_mapping fnmatch file_path' mappings
  /\ is_excluded fnmatch (normalize_path file_path) exclusions
     = is_excluded fnmatch file_path exclusions.
Proof.
  intros H. split; [|split].
  - unfold is_excluded. now rewrite H.
  - rewrite !match_file_to_mapping_filter. now rewrite H.
  - unfold is_excluded. now rewrite normalize_path_idem.
Qed.

(** X13.  When every changed file is excluded or matches no mapping, the
    detector's metadata is the initial one: no resource entry, no mapping,
    no required action, and the checklist with every configured key
    false. *)
Theorem nothing_matched config_path base_commit head_commit cfg changed :
  (forall file_path,
      In file_path changed ->
      is_excluded fnmatch file_path (exclusion_patterns cfg) = true \/
      match_file_to_mapping fnmatch file_path (resource_mappings cfg) = []) ->
  run_change_detection fnmatch config_path base_commit head_commit cfg changed
  = initial_metadata config_path base_commit head_commit cfg changed.
Proof.
  intros H. rewrite run_as_pairs.
  assert (Hnil : matched_pairs fnmatch cfg changed = []).
  { unfold matched_pairs. clear config_path base_commit head_commit.
    induction changed as [|f fs IH]; simpl; [reflexivity|].
    rewrite IH by (intros g Hg; apply H; now right).
    destruct (H f (or_introl eq_refl)) as [-> | Hm]; [reflexivity|].
    rewrite Hm. now destruct (is_excluded fnmatch f (exclusion_patterns cfg)). }
  now rewrite Hnil.
Qed.

End DetectExtras.

End DetectorExtras.

(** ** The Change Detector, over a whole run *)

Module DetectorRun.
Import Detector DetectorFacts DetectorExtras.

Lemma dict_set_absent {V : Type} (k : string) (v : V) (d : dict V) :
  ~ In k (keys d) -> dict_set k v d = d ++ [(k, v)].
Proof.
  induction d as [|[k0 v0] d IH]; simpl; intros H; [reflexivity|].
  destruct (String.eqb k k0) eqn:E.
  - apply String.eqb_eq in E. subst k0. exfalso. apply H. now left.
  - rewrite IH by tauto. reflexivity.
Qed.

Lemma filter_map_length {A B : Type} (P : B -> bool) (g : A -> B) (l : list A) :
  List.length (filter P (map g l))
  = List.length (filter (fun x => P (g x)) l).
Proof.
  induction l as [|x l IH]; simpl; [reflexivity|].
  destruct (P (g x)); simpl; now rewrite IH.
Qed.

Lemma filter_none {A : Type} (P : A -> bool) (l : list A) :
  (forall x, In x l -> P x = false) -> filter P l = [].
Proof.
  induction l as [|x l IH]; simpl; intros H; [reflexivity|].
  rewrite (H x) by now left. apply IH. intros y Hy. apply H. now right.
Qed.

(** One step from two states that agree on the four accumulated fields. *)
Lemma record_match_same_fields file_path m md md' :
  cm_affected_resources md = cm_affected_resources md' ->
  cm_affected_mappings md = cm_affected_mappings md' ->
  cm_deployment_checklist md = cm_deployment_checklist md' ->
  cm_required_actions md = cm_required_actions md' ->
  cm_affected_resources (record_match file_path md m)
  = cm_affected_resources (record_match file_path md' m)
  /\ cm_affected_mappings (record_match file_path md m)
     = cm_affected_mappings (record_match file_path md' m)
  /\ cm_deployment_checklist (record_match file_path md m)
     = cm_deployment_checklist (record_match file_path md' m)
  /\ cm_required_actions (record_match file_path md m)
     = cm_required_actions (record_match file_path md' m).
Proof.
  destruct m as [key mc]. simpl. intros -> -> -> ->. auto.
Qed.

Lemma fold_apply_pair_same_fields ps : forall md md',
  cm_affected_resources md = cm_affected_resources md' ->
  cm_affected_mappings md = cm_affected_mappings md' ->
  cm_deployment_checklist md = cm_deployment_checklist md' ->
  cm_required_actions md = cm_required_actions md' ->
  cm_affected_resources (fold_left apply_pair ps md)
  = cm_affected_resources (fold_left apply_pair ps md')
  /\ cm_affected_mappings (fold_left apply_pair ps md)
     = cm_affected_mappings (fold_left apply_pair ps md')
  /\ cm_deployment_checklist (fold_left apply_pair ps md)
     = cm_deployment_checklist (fold_left apply_pair ps md')
  /\ cm_required_actions (fold_left apply_pair ps md)
     = cm_required_actions (fold_left apply_pair ps md').
Proof.
  induction ps as [|p ps IH]; cbn [fold_left]; intros md md' H1 H2 H3 H4;
    [auto|].
  destruct (record_match_same_fields (fst p) (snd p) md md' H1 H2 H3 H4)
    as (G1 & G2 & G3 & G4).
  now apply IH.
Qed.

Section WholeRun.
Variable fnmatch : string -> string -> bool.

Lemma is_excluded_iff file_path exclusions :
  is_excluded fnmatch file_path exclusions = true <->
  exists pattern,
    In pattern exclusions /\
    fnmatch (normalize_path file_path) pattern = true.
Proof. unfold is_excluded. apply any_pattern_matches_iff. Qed.

Lemma matched_pairs_filter cfg changed :
  matched_pairs fnmatch cfg
    (filter (fun f => negb (is_excluded fnmatch f (exclusion_patterns cfg)))
            changed)
  = matched_pairs fnmatch cfg changed.
Proof.
  unfold matched_pairs. induction changed as [|f fs IH]; simpl; [reflexivity|].
  destruct (is_excluded fnmatch f (exclusion_patterns cfg)) eqn:E; simpl.
  - exact IH.
  - rewrite E, IH. reflexivity.
Qed.

(** How many matched pairs a file contributes under a test on mappings. *)
Lemma matched_pairs_count cfg changed file_path
      (Q : string * mapping_config -> bool) :
  List.length
    (filter (fun p => String.eqb (fst p) file_path && Q (snd p))
            (matched_pairs fnmatch cfg changed))
  = count_occ string_dec changed file_path
    * (if is_excluded fnmatch file_path (exclusion_patterns cfg) then 0
       else List.length
              (filter Q (match_file_to_mapping fnmatch file_path
                                               (resource_mappings cfg)))).
Proof.
  unfold matched_pairs. induction changed as [|f fs IH]; [reflexivity|].
  cbn [flat_map]. rewrite filter_app, length_app, IH. clear IH.
  cbn [count_occ]. destruct (string_dec f file_path) as [->|Hne].
  - cbn [Nat.mul]. f_equal.
    destruct (is_excluded fnmatch file_path (exclusion_patterns cfg));
      [reflexivity|].
    rewrite filter_map_length. cbn [fst snd]. rewrite String.eqb_refl.
    reflexivity.
  - rewrite filter_none; [reflexivity|].
    intros p Hp. apply String.eqb_neq in Hne.
    destruct (is_excluded fnmatch f (exclusion_patterns cfg)); [contradiction|].
    apply in_map_iff in Hp. destruct Hp as (m & <- & _). simpl. now rewrite Hne.
Qed.

(** C1 (amended).  The keys of the detector's checklist are the
    configured checklist keys together with every non-empty target stack
    other than ["all"] of a mapping matched by a file that is not excluded,
    and every such target is a key whose value is true at the end of the
    run: a match whose target is not yet a key appends it to the checklist
    with value true.  No step removes a key, and a step whose target is
    ["all"], an existing key, empty or absent leaves the keys as they are. *)
Theorem checklist_keys config_path base_commit head_commit cfg changed :
  (forall k,
      In k (keys (cm_deployment_checklist
                    (run_change_detection fnmatch config_path base_commit
                                          head_commit cfg changed)))
      <->
      In k (keys (deployment_checklist_config cfg)) \/
      (exists file_path mapping_key mc,
          In file_path changed /\
          is_excluded fnmatch file_path (exclusion_patterns cfg) = false /\
          In (mapping_key, mc)
             (match_file_to_mapping fnmatch file_path (resource_mappings cfg)) /\
          target_stack mc = Some k /\ k <> "all" /\ k <> ""))
  /\ (forall file_path mapping_key mc k,
         In file_path changed ->
         is_excluded fnmatch file_path (exclusion_patterns cfg) = false ->
         In (mapping_key, mc)
            (match_file_to_mapping fnmatch file_path (resource_mappings cfg)) ->
         target_stack mc = Some k -> k <> "all" -> k <> "" ->
         dict_get k (cm_deployment_checklist
                       (run_change_detection fnmatch config_path base_commit
                                             head_commit cfg changed))
         = Some true)
  /\ (forall file_path md mapping_key mc t,
         target_stack mc = Some t -> t <> "all" -> t <> "" ->
         dict_get t (cm_deployment_checklist
                       (record_match file_path md (mapping_key, mc)))
         = Some true
         /\ (~ In t (keys (cm_deployment_checklist md)) ->
             cm_deployment_checklist
               (record_match file_path md (mapping_key, mc))
             = cm_deployment_checklist md ++ [(t, true)]))
  /\ (forall file_path md m k,
         In k (keys (cm_deployment_checklist md)) ->
         In k (keys (cm_deployment_checklist (record_match file_path md m))))
  /\ (forall file_path md mapping_key mc,
         (target_stack mc = None \/ target_stack mc = Some "" \/
          target_stack mc = Some "all" \/
          exists t, target_stack mc = Some t /\
                    In t (keys (cm_deployment_checklist md))) ->
         keys (cm_deployment_checklist
                 (record_match file_path md (mapping_key, mc)))
         = keys (cm_deployment_checklist md)).
Proof.
  split; [|split; [|split; [|split]]].
  - intros k.
    rewrite run_as_pairs, fold_apply_pair_checklist,
      (keys_fold_update fnmatch).
    simpl. rewrite keys_initial_checklist. split.
    + intros [H|([f [key mc]] & Hp & H)]; [now left | right].
      apply matched_pairs_In in Hp. exists f, key, mc. simpl in H. tauto.
    + intros [H|(f & key & mc & Hf & Hex & Hm & H)]; [now left | right].
      exists (f, (key, mc)). split; [|exact H].
      apply matched_pairs_In. auto.
  - intros f key mc k Hf Hex Hm Ht Hall Hempty.
    rewrite run_as_pairs, fold_apply_pair_checklist.
    apply (fold_update_true fnmatch). right. right.
    exists (f, (key, mc)). split; [now apply matched_pairs_In | auto].
  - intros f md key mc t Ht Hall Hempty. simpl. rewrite Ht. split.
    + now apply update_checklist_target.
    + intros Hnew. unfold update_checklist.
      apply String.eqb_neq in Hall. apply String.eqb_neq in Hempty.
      rewrite Hall, Hempty. simpl. now apply dict_set_absent.
  - intros f md [key mc] k H. simpl. apply keys_update_checklist. now left.
  - intros f md key mc H. simpl. unfold update_checklist.
    destruct H as [-> | [-> | [-> | (t & -> & Ht)]]]; try reflexivity.
    + apply keys_set_all_true.
    + destruct (String.eqb t "all"); [apply keys_set_all_true|].
      destruct (negb (String.eqb t "")); [|reflexivity].
      now apply keys_dict_set_present.
Qed.

(** C5.  Within one run the checklist only moves from false to true.
    Every value of the initial checklist is false, and a flag is true at
    the end of the run only if a matched mapping targets ["all"] or that
    stack.  When a changed file that is not excluded matches a mapping whose
    target is ["all"], every key of the checklist is true at the end of the
    run, whatever matched before or after; one such match makes every key it
    finds true.  A flag that is true stays true: through one match, through
    any further files, and from any point of the run to its end. *)
Theorem checklist_monotone config_path base_commit head_commit cfg changed :
  (forall kv, In kv (initial_checklist cfg) -> snd kv = false)
  /\ (forall k,
         dict_get k (cm_deployment_checklist
                       (run_change_detection fnmatch config_path base_commit
                                             head_commit cfg changed))
         = Some true ->
         exists file_path mapping_key mc,
           In file_path changed /\
           is_excluded fnmatch file_path (exclusion_patterns cfg) = false /\
           In (mapping_key, mc)
              (match_file_to_mapping fnmatch file_path
                                     (resource_mappings cfg)) /\
           (target_stack mc = Some "all" \/ target_stack mc = Some k))
  /\ (forall file_path mapping_key mc k,
         In file_path changed ->
         is_excluded fnmatch file_path (exclusion_patterns cfg) = false ->
         In (mapping_key, mc)
            (match_file_to_mapping fnmatch file_path (resource_mappings cfg)) ->
         target_stack mc = Some "all" ->
         In k (keys (cm_deployment_checklist
                       (run_change_detection fnmatch config_path base_commit
                                             head_commit cfg changed))) ->
         dict_get k (cm_deployment_checklist
                       (run_change_detection fnmatch config_path base_commit
                                             head_commit cfg changed))
         = Some true)
  /\ (forall before after k,
         changed = before ++ after ->
         dict_get k (cm_deployment_checklist
                       (fold_left (process_file fnmatch cfg) before
                          (initial_metadata config_path base_commit
                                            head_commit cfg changed)))
         = Some true ->
         dict_get k (cm_deployment_checklist
                       (run_change_detection fnmatch config_path base_commit
                                             head_commit cfg changed))
         = Some true)
  /\ (forall file_path md mapping_key mc k,
         target_stack mc = Some "all" ->
         In k (keys (cm_deployment_checklist md)) ->
         dict_get k (cm_deployment_checklist
                       (record_match file_path md (mapping_key, mc)))
         = Some true)
  /\ (forall file_path md m k,
         dict_get k (cm_deployment_checklist md) = Some true ->
         dict_get k (cm_deployment_checklist (record_match file_path md m))
         = Some true)
  /\ (forall files md k,
         dict_get k (cm_deployment_checklist md) = Some true ->
         dict_get k (cm_deployment_checklist
                       (fold_left (process_file fnmatch cfg) files md))
         = Some true).
Proof.
  assert (Hfold : forall files md k,
         dict_get k (cm_deployment_checklist md) = Some true ->
         dict_get k (cm_deployment_checklist
                       (fold_left (process_file fnmatch cfg) files md))
         = Some true).
  { intros files md k H.
    rewrite fold_process_file, fold_apply_pair_checklist.
    now apply fold_update_mono. }
  split; [|split; [|split; [|split; [|split; [|split]]]]].
  - apply initial_checklist_false.
  - intros k H.
    rewrite run_as_pairs, fold_apply_pair_checklist in H.
    apply (fold_update_true fnmatch) in H. simpl in H.
    destruct H as [H|[(_ & [f [key mc]] & Hp & Ht)|([f [key mc]] & Hp & Ht & _)]].
    + apply dict_get_Some_In, initial_checklist_false in H. discriminate.
    + apply matched_pairs_In in Hp. exists f, key, mc. simpl in Ht. tauto.
    + apply matched_pairs_In in Hp. exists f, key, mc. simpl in Ht. tauto.
  - intros f key mc k Hf Hex Hm Ht Hk.
    rewrite run_as_pairs, fold_apply_pair_checklist in *.
    apply (fold_update_true fnmatch). right. left. split; [exact Hk|].
    exists (f, (key, mc)). split; [now apply matched_pairs_In | exact Ht].
  - intros before after k Heq H. unfold run_change_detection.
    rewrite Heq at 1. rewrite fold_left_app. now apply Hfold.
  - intros f md key mc k Hall Hk. simpl. rewrite Hall. simpl.
    now apply set_all_true_get.
  - intros f md [key mc] k H. simpl. now apply update_checklist_mono.
  - exact Hfold.
Qed.

(** C6.  A file is excluded exactly when some exclusion pattern matches
    its normalised path.  Every entry of the detector's
    [affected_resources] was made for a file of the changed-file list that
    no exclusion pattern matches, and for a mapping matching it; so the file
    of an entry is an element of the list and a file matching an exclusion
    pattern is named by no entry.  Such a file leaves the whole metadata as
    it was, and the resources, mappings, checklist and actions of the run
    are those of the run over the files no exclusion pattern matches. *)
Theorem excluded_files_ignored config_path base_commit head_commit cfg changed :
  (forall file_path,
      is_excluded fnmatch file_path (exclusion_patterns cfg) = true <->
      exists pattern,
        In pattern (exclusion_patterns cfg) /\
        fnmatch (normalize_path file_path) pattern = true)
  /\ (forall e,
         In e (cm_affected_resources
                 (run_change_detection fnmatch config_path base_commit
                                       head_commit cfg changed)) ->
         exists file_path mapping_key mc,
           e = resource_entry file_path mapping_key mc /\
           py_get e "file" JNull = Some (JStr file_path) /\
           In file_path changed /\
           (forall pattern,
               In pattern (exclusion_patterns cfg) ->
               fnmatch (normalize_path file_path) pattern = false) /\
           In (mapping_key, mc)
              (match_file_to_mapping fnmatch file_path
                                     (resource_mappings cfg)))
  /\ (forall file_path pattern e,
         In pattern (exclusion_patterns cfg) ->
         fnmatch (normalize_path file_path) pattern = true ->
         In e (cm_affected_resources
                 (run_change_detection fnmatch config_path base_commit
                                       head_commit cfg changed)) ->
         py_get e "file" JNull <> Some (JStr file_path))
  /\ (forall file_path pattern md,
         In pattern (exclusion_patterns cfg) ->
         fnmatch (normalize_path file_path) pattern = true ->
         process_file fnmatch cfg md file_path = md)
  /\ (let kept :=
        filter (fun f => negb (existsb (fnmatch (normalize_path f))
                                       (exclusion_patterns cfg)))
               changed in
      let md := run_change_detection fnmatch config_path base_commit
                                     head_commit cfg changed in
      let md' := run_change_detection fnmatch config_path base_commit
                                      head_commit cfg kept in
      cm_affected_resources md = cm_affected_resources md'
      /\ cm_affected_mappings md = cm_affected_mappings md'
      /\ cm_deployment_checklist md = cm_deployment_checklist md'
      /\ cm_required_actions md = cm_required_actions md').
Proof.
  assert (Hentries : forall e,
         In e (cm_affected_resources
                 (run_change_detection fnmatch config_path base_commit
                                       head_commit cfg changed)) ->
         exists file_path mapping_key mc,
           e = resource_entry file_path mapping_key mc /\
           py_get e "file" JNull = Some (JStr file_path) /\
           In file_path changed /\
           (forall pattern,
               In pattern (exclusion_patterns cfg) ->
               fnmatch (normalize_path file_path) pattern = false) /\
           In (mapping_key, mc)
              (match_file_to_mapping fnmatch file_path
                                     (resource_mappings cfg))).
  { intros e He. rewrite run_affected_resources in He.
    apply in_map_iff in He. destruct He as ([f [key mc]] & <- & Hp).
    apply matched_pairs_In in Hp. destruct Hp as (Hf & Hex & Hm).
    exists f, key, mc. simpl. repeat split; try assumption; try reflexivity.
    intros pattern Hpat.
    destruct (fnmatch (normalize_path f) pattern) eqn:E; [|reflexivity].
    assert (Htrue : is_excluded fnmatch f (exclusion_patterns cfg) = true)
      by (apply is_excluded_iff; eauto).
    congruence. }
  split; [intros f; apply is_excluded_iff|].
  split; [exact Hentries|]. split; [|split].
  - intros f pattern e Hpat Hmatch He Hfile.
    destruct (Hentries e He) as (f' & key & mc & _ & Hf' & _ & Hno & _).
    rewrite Hf' in Hfile. inversion Hfile. subst f'.
    rewrite (Hno pattern Hpat) in Hmatch. discriminate.
  - intros f pattern md Hpat Hmatch. unfold process_file.
    assert (Htrue : is_excluded fnmatch f (exclusion_patterns cfg) = true)
      by (apply is_excluded_iff; eauto).
    now rewrite Htrue.
  - cbv zeta.
    assert (Hkept :
      filter (fun f => negb (existsb (fnmatch (normalize_path f))
                                     (exclusion_patterns cfg))) changed
      = filter (fun f => negb (is_excluded fnmatch f (exclusion_patterns cfg)))
               changed).
    { apply filter_ext. intros f. unfold is_excluded.
      now rewrite any_pattern_matches_existsb. }
    rewrite Hkept, !run_as_pairs, matched_pairs_filter.
    apply fold_apply_pair_same_fields; reflexivity.
Qed.

(** C7.  A mapping is among the matches of a file exactly when it is a
    mapping of the rule set and one of its patterns matches the
    (normalised) path; the matches are the mappings filtered by that test,
    each at most once however many of its patterns match.  The entries of
    the run are, file by file in the order of the changed files, nothing for
    an excluded file and otherwise one entry per matching mapping in mapping
    order.  So with distinct mapping keys the run holds, for each occurrence
    of a file that is not excluded, exactly one entry for a mapping with a
    matching pattern and none for any other mapping, and a file with [n]
    matching mappings has [n] entries per occurrence; a file that is not
    excluded adds its entries in one step of the loop. *)
Theorem one_entry_per_matching_mapping
        config_path base_commit head_commit cfg changed :
  (forall file_path mapping_key mc,
      In (mapping_key, mc)
         (match_file_to_mapping fnmatch file_path (resource_mappings cfg))
      <->
      In (mapping_key, mc) (resource_mappings cfg) /\
      exists pattern, In pattern (patterns mc) /\
                      fnmatch (normalize_path file_path) pattern = true)
  /\ (forall file_path,
         match_file_to_mapping fnmatch file_path (resource_mappings cfg)
         = filter (fun m => existsb (fnmatch (normalize_path file_path))
                                    (patterns (snd m)))
                  (resource_mappings cfg))
  /\ cm_affected_resources
       (run_change_detection fnmatch config_path base_commit head_commit cfg
                             changed)
     = flat_map
         (fun file_path =>
            if is_excluded fnmatch file_path (exclusion_patterns cfg) then []
            else map (fun m => resource_entry file_path (fst m) (snd m))
                     (filter (fun m =>
                                existsb (fnmatch (normalize_path file_path))
                                        (patterns (snd m)))
                             (resource_mappings cfg)))
         changed
  /\ (forall file_path mapping_key mc,
         NoDup (keys (resource_mappings cfg)) ->
         In (mapping_key, mc) (resource_mappings cfg) ->
         List.length
           (filter (entry_names file_path mapping_key)
                   (cm_affected_resources
                      (run_change_detection fnmatch config_path base_commit
                                            head_commit cfg changed)))
         = count_occ string_dec changed file_path
           * (if is_excluded fnmatch file_path (exclusion_patterns cfg) then 0
              else if existsb (fnmatch (normalize_path file_path))
                              (patterns mc)
                   then 1 else 0))
  /\ (forall file_path,
         List.length
           (filter (entry_file file_path)
                   (cm_affected_resources
                      (run_change_detection fnmatch config_path base_commit
                                            head_commit cfg changed)))
         = count_occ string_dec changed file_path
           * (if is_excluded fnmatch file_path (exclusion_patterns cfg) then 0
              else List.length
                     (match_file_to_mapping fnmatch file_path
                                            (resource_mappings cfg))))
  /\ (forall file_path md,
         is_excluded fnmatch file_path (exclusion_patterns cfg) = false ->
         cm_affected_resources (process_file fnmatch cfg md file_path)
         = cm_affected_resources md
           ++ map (fun m => resource_entry file_path (fst m) (snd m))
                  (match_file_to_mapping fnmatch file_path
                                         (resource_mappings cfg)))
  /\ (forall file_path mapping_key mc,
         NoDup (keys (resource_mappings cfg)) ->
         In (mapping_key, mc) (resource_mappings cfg) ->
         List.length
           (filter (fun m => String.eqb (fst m) mapping_key)
                   (match_file_to_mapping fnmatch file_path
                                          (resource_mappings cfg)))
         = if existsb (fnmatch (normalize_path file_path)) (patterns mc)
           then 1 else 0).
Proof.
  assert (Hfilter : forall file_path,
         match_file_to_mapping fnmatch file_path (resource_mappings cfg)
         = filter (fun m => existsb (fnmatch (normalize_path file_path))
                                    (patterns (snd m)))
                  (resource_mappings cfg)).
  { intros f. rewrite match_file_to_mapping_filter. apply filter_ext.
    intros m. apply any_pattern_matches_existsb. }
  split; [|split; [exact Hfilter|split; [|split; [|split; [|split]]]]].
  - intros f key mc. rewrite Hfilter, filter_In, existsb_exists. simpl.
    reflexivity.
  - rewrite run_affected_resources. unfold matched_pairs.
    induction changed as [|f fs IH]; simpl; [reflexivity|].
    rewrite map_app, IH. f_equal.
    destruct (is_excluded fnmatch f (exclusion_patterns cfg)); [reflexivity|].
    rewrite map_map, Hfilter. reflexivity.
  - intros f key mc Hnd Hin.
    rewrite run_affected_resources, filter_map_length.
    rewrite <- any_pattern_matches_existsb,
      <- (filter_key_present fnmatch f key mc (resource_mappings cfg) Hnd Hin).
    rewrite <- (matched_pairs_count cfg changed f
                  (fun m => String.eqb (fst m) key)).
    reflexivity.
  - intros f. rewrite run_affected_resources, filter_map_length.
    assert (Hall : forall l : list (string * mapping_config),
               List.length (filter (fun _ => true) l) = List.length l).
    { induction l as [|x l IHl]; simpl; [reflexivity | now rewrite IHl]. }
    rewrite <- (Hall (match_file_to_mapping fnmatch f (resource_mappings cfg))).
    rewrite <- (matched_pairs_count cfg changed f (fun _ => true)).
    f_equal. apply filter_ext. intros [f' [key' mc']]. simpl.
    now rewrite andb_true_r.
  - intros f md Hex. unfold process_file. rewrite Hex.
    rewrite fold_record_match, fold_apply_pair_resources, map_map.
    reflexivity.
  - intros f key mc Hnd Hin. rewrite <- any_pattern_matches_existsb.
    now apply filter_key_present.
Qed.

End WholeRun.

End DetectorRun.

(** ** The detector's document under the validator, in full *)

Module PipelineExtras.
Import Detector Validator Diff DetectorFacts ValidatorFacts PipelineFacts.

Section PipelineMore.
Variable fnmatch : string -> string -> bool.
Variable format_value : json -> string.

Lemma any_checklist_values (checklist : dict bool) :
  any (values (map (fun kv : string * bool => (fst kv, JBool (snd kv)))
                   checklist))
  = existsb snd checklist.
Proof.
  unfold any, values.
  induction checklist as [|[k b] rest IH]; simpl; [reflexivity|].
  now rewrite IH.
Qed.

Lemma critical_resources_entries ps :
  critical_resources
    (map (fun p : string * (string * mapping_config) =>
            resource_entry (fst p) (fst (snd p)) (snd (snd p))) ps)
  = Some (map (fun p : string * (string * mapping_config) =>
                 resource_entry (fst p) (fst (snd p)) (snd (snd p)))
              (filter (fun p => is_critical (snd (snd p))) ps)).
Proof.
  induction ps as [|[f [key mc]] ps IH]; [reflexivity|].
  cbn [map filter critical_resources fst snd]. rewrite IH.
  unfold is_critical, resource_entry. cbn.
  destruct (impact_level mc) as [level|] eqn:E; cbn; [|reflexivity].
  destruct (String.eqb level "CRITICAL"); cbn; rewrite ?E; reflexivity.
Qed.

(** The validator on a document the detector built from the pairs [ps]. *)
Lemma validate_document_exact md strict ps :
  cm_affected_resources md
  = map (fun p : string * (string * mapping_config) =>
           resource_entry (fst p) (fst (snd p)) (snd (snd p))) ps ->
  let critical :=
    List.length (filter (fun p => is_critical (snd (snd p))) ps) in
  let warnings :=
    if negb (Nat.eqb (List.length (cm_changed_files md)) 0)
       && Nat.eqb (List.length ps) 0
    then [msg_no_affected_resources (List.length (cm_changed_files md))]
    else [] in
  let errors :=
    (if negb (Nat.eqb (List.length ps) 0)
        && negb (existsb snd (cm_deployment_checklist md))
     then [msg_checklist_empty (List.length ps)] else [])
    ++ (if negb (Nat.eqb critical 0)
           && Nat.eqb (List.length (cm_required_actions md)) 0
        then [msg_critical critical] else []) in
  validate_change_impact format_value (to_document md) strict
  = Some (Nat.eqb (List.length errors) 0
          && (negb strict || Nat.eqb (List.length warnings) 0),
          errors, warnings).
Proof.
  intros Hps. cbv zeta.
  assert (Hcov :
    check_coverage (JArr (map JStr (cm_changed_files md)))
                   (JArr (cm_affected_resources md)) []
    = Some (if negb (Nat.eqb (List.length (cm_changed_files md)) 0)
               && Nat.eqb (List.length ps) 0
            then [msg_no_affected_resources
                    (List.length (cm_changed_files md))]
            else [])).
  { rewrite Hps. unfold check_coverage.
    destruct (cm_changed_files md) as [|f fs], ps as [|p ps'];
      cbn; rewrite ?length_map; reflexivity. }
  assert (Hcl :
    check_checklist (JArr (cm_affected_resources md))
      (JObj (map (fun kv : string * bool => (fst kv, JBool (snd kv)))
                 (cm_deployment_checklist md))) []
    = Some (if negb (Nat.eqb (List.length ps) 0)
               && negb (existsb snd (cm_deployment_checklist md))
            then [msg_checklist_empty (List.length ps)] else [])).
  { rewrite Hps. unfold check_checklist.
    destruct ps as [|p ps']; [reflexivity|].
    cbn [map nonempty_and_len truthy py_len bind ret List.length Nat.ltb
         Nat.leb py_values Nat.eqb negb andb].
    rewrite any_checklist_values.
    destruct (existsb snd (cm_deployment_checklist md)); cbn;
      rewrite ?length_map; reflexivity. }
  assert (Hact :
    truthy (dict_get_default "required_actions" (JArr []) (to_document md))
    = negb (Nat.eqb (List.length (cm_required_actions md)) 0)).
  { cbn. now destruct (cm_required_actions md). }
  unfold validate_change_impact.
  change (check_structure (to_document md) []) with (@nil string).
  cbn [List.length Nat.eqb negb].
  change (dict_get_default "affected_resources" (JArr []) (to_document md))
    with (JArr (cm_affected_resources md)).
  change (dict_get_default "deployment_checklist" (JObj []) (to_document md))
    with (JObj (map (fun kv : string * bool => (fst kv, JBool (snd kv)))
                    (cm_deployment_checklist md))).
  change (dict_get_default "changed_files" (JArr []) (to_document md))
    with (JArr (map JStr (cm_changed_files md))).
  rewrite Hcov, Hcl. cbn [bind py_iter ret].
  change (check_enhanced (to_document md) (JArr (cm_affected_resources md)))
    with (fun w : list string => w).
  cbv beta. rewrite Hps, check_resources_entries. cbn [bind].
  unfold check_critical. rewrite critical_resources_entries, Hact.
  cbn [bind]. rewrite !length_map, negb_involutive.
  match goal with
  | |- context [if ?c then ret (_ ++ [msg_critical _]) else _] => destruct c
  end; unfold ret; cbn [bind]; [reflexivity | now rewrite app_nil_r].
Qed.

(** X14.  The verdict the validator gives on the detector's document, in
    full: the only warning is the coverage warning, raised when files
    changed and no (file, mapping) pair matched; the checklist error is
    raised when pairs matched and no flag is true; the critical error is
    raised when a matched mapping is critical and no action is required;
    there is no other error or warning, and the verdict follows from them. *)
Theorem detector_verdict
        config_path base_commit head_commit cfg changed strict :
  let md := run_change_detection fnmatch config_path base_commit head_commit
                                 cfg changed in
  let pairs := matched_pairs fnmatch cfg changed in
  let critical :=
    List.length (filter (fun p => is_critical (snd (snd p))) pairs) in
  let warnings :=
    if negb (Nat.eqb (List.length changed) 0)
       && Nat.eqb (List.length pairs) 0
    then [msg_no_affected_resources (List.length changed)]
    else [] in
  let errors :=
    (if negb (Nat.eqb (List.length pairs) 0)
        && negb (existsb snd (cm_deployment_checklist md))
     then [msg_checklist_empty (List.length pairs)] else [])
    ++ (if negb (Nat.eqb critical 0)
           && Nat.eqb (List.length (cm_required_actions md)) 0
        then [msg_critical critical] else []) in
  validate_change_impact format_value (to_document md) strict
  = Some (Nat.eqb (List.length errors) 0
          && (negb strict || Nat.eqb (List.length warnings) 0),
          errors, warnings).
Proof.
  cbv zeta.
  pose proof (validate_document_exact
                (run_change_detection fnmatch config_path base_commit
                                      head_commit cfg changed)
                strict (matched_pairs fnmatch cfg changed)
                (run_affected_resources fnmatch _ _ _ _ _)) as H.
  cbv zeta in H.
  rewrite run_as_pairs, fold_apply_pair_changed_files in H.
  rewrite <- run_as_pairs in H. exact H.
Qed.

(** X15.  A failed diff looks like no change at all: with the file list
    [get_changed_files] returns when the diff raised, the detector's
    document has no resource entry and only false flags, and the validator
    accepts it without error or warning, in strict mode too. *)
Theorem failed_diff_passes config_path base_commit head_commit cfg strict :
  let md := run_change_detection fnmatch config_path base_commit head_commit
                                 cfg (get_changed_files None) in
  cm_affected_resources md = []
  /\ (forall kv, In kv (cm_deployment_checklist md) -> snd kv = false)
  /\ validate_change_impact format_value (to_document md) strict
     = Some (true, [], []).
Proof.
  cbv zeta. simpl get_changed_files. split; [reflexivity|]. split.
  - apply initial_checklist_false.
  - destruct strict; reflexivity.
Qed.

End PipelineMore.

End PipelineExtras.

(** ** More on the Metadata Enhancer *)

Module EnhancerExtras.
Import Enhancer Validator EnhancerFacts ValidatorFacts.

(** The keys the enhancer writes. *)
Lemma prepare_keys metadata condition_mapping enhanced k :
  prepare_change_metadata metadata condition_mapping = Some enhanced ->
  (In k (keys enhanced) <->
   In k (keys metadata) \/
   In k ["cloudformation_conditions"; "metadata_version"; "enhanced";
         "has_affected_resources"; "has_deployments"; "is_valid"]).
Proof.
  intros H. apply prepare_inv in H. destruct H as (items & n & _ & _ & ->).
  rewrite !keys_dict_set. simpl. intuition.
Qed.

Lemma prepare_other_keys metadata condition_mapping enhanced k :
  prepare_change_metadata metadata condition_mapping = Some enhanced ->
  ~ In k ["cloudformation_conditions"; "metadata_version"; "enhanced";
          "has_affected_resources"; "has_deployments"; "is_valid"] ->
  dict_get k enhanced = dict_get k metadata.
Proof.
  intros H Hk. apply prepare_inv in H. destruct H as (items & n & _ & _ & ->).
  simpl in Hk.
  rewrite !dict_get_set_other; [reflexivity | | | | | |];
    intros ->; apply Hk; tauto.
Qed.

(** X16.  The enhancer raises exactly when [deployment_checklist] is present
    and not a dict, or [affected_resources] is present and has no length (a
    number, a boolean or [null]); the condition mapping plays no part in
    it. *)
Theorem prepare_raises_iff metadata condition_mapping :
  prepare_change_metadata metadata condition_mapping = None <->
  is_dict (dict_get_default "deployment_checklist" (JObj []) metadata) = false
  \/ py_len (dict_get_default "affected_resources" (JArr []) metadata) = None.
Proof.
  unfold prepare_change_metadata.
  destruct (dict_get_default "deployment_checklist" (JObj []) metadata)
    as [| | | | |items]; simpl; try (split; [now left | reflexivity]).
  destruct (py_len (dict_get_default "affected_resources" (JArr []) metadata))
    as [n|]; simpl.
  - split; [discriminate | intros [H|H]; discriminate].
  - split; [now right | reflexivity].
Qed.

(** X17.  The enhancer carries the input document through: the keys of its
    result are the keys of the input and the six keys it writes, and every
    other key keeps its value. *)
Theorem prepare_carries_input metadata condition_mapping enhanced :
  prepare_change_metadata metadata condition_mapping = Some enhanced ->
  (forall k,
      In k (keys enhanced) <->
      In k (keys metadata) \/
      In k ["cloudformation_conditions"; "metadata_version"; "enhanced";
            "has_affected_resources"; "has_deployments"; "is_valid"])
  /\ (forall k,
         ~ In k ["cloudformation_conditions"; "metadata_version"; "enhanced";
                 "has_affected_resources"; "has_deployments"; "is_valid"] ->
         dict_get k enhanced = dict_get k metadata).
Proof.
  intros H. split; intros k.
  - now apply (prepare_keys metadata condition_mapping).
  - now apply (prepare_other_keys metadata condition_mapping).
Qed.

(** X18.  The flags the enhancer writes: [enhanced] is true and the version
    is ["2.0"]; [has_affected_resources] is true exactly when
    [affected_resources] is not empty, [has_deployments] exactly when some
    checklist value is truthy, and [is_valid] is their conjunction. *)
Theorem prepare_flags metadata condition_mapping enhanced :
  prepare_change_metadata metadata condition_mapping = Some enhanced ->
  dict_get "enhanced" enhanced = Some (JBool true)
  /\ dict_get "metadata_version" enhanced = Some (JStr "2.0")
  /\ exists has_resources has_deployments,
      dict_get "has_affected_resources" enhanced
      = Some (JBool has_resources)
      /\ dict_get "has_deployments" enhanced = Some (JBool has_deployments)
      /\ dict_get "is_valid" enhanced
         = Some (JBool (has_resources && has_deployments))
      /\ (has_resources = true <->
          exists n,
            py_len (dict_get_default "affected_resources" (JArr []) metadata)
            = Some (S n))
      /\ (has_deployments = true <->
          exists items v,
            dict_get_default "deployment_checklist" (JObj []) metadata
            = JObj items
            /\ In v (values items) /\ truthy v = true).
Proof.
  intros H. apply prepare_inv in H. destruct H as (items & n & Hdc & Hlen & ->).
  split; [now dict_get_literal|]. split; [now dict_get_literal|].
  exists (Nat.ltb 0 n), (any (values items)).
  split; [now dict_get_literal|]. split; [now dict_get_literal|].
  split; [now dict_get_literal|]. split.
  - rewrite Hlen. destruct n as [|n]; simpl.
    + split; [discriminate | intros (m & Hm); discriminate].
    + split; [eauto | reflexivity].
  - rewrite Hdc. unfold any. rewrite existsb_exists. split.
    + intros (v & Hv & Ht). now exists items, v.
    + intros (items' & v & Heq & Hv & Ht). inversion Heq. subst. now exists v.
Qed.

(** X19.  The last checklist key mapped to a condition name decides its
    value: the flag of the final item of the checklist is the value of the
    condition its key yields, whatever earlier keys sharing the name wrote,
    unless the composite of [application] overwrites that name. *)
Theorem last_key_decides condition_mapping items k v name :
  dict_get k condition_mapping = Some name -> name <> "" ->
  (name = "DeployApplicationStack" ->
   dict_mem "application" (items ++ [(k, v)]) = false) ->
  dict_get name (build_conditions condition_mapping (items ++ [(k, v)]))
  = Some v.
Proof.
  intros Hget Hne Hcomposite. unfold build_conditions, add_composite.
  rewrite fold_left_app. cbn [fold_left].
  rewrite (add_condition_yields condition_mapping _ k v name)
    by (split; assumption).
  destruct (dict_mem "application" (items ++ [(k, v)])) eqn:Ea.
  - rewrite dict_get_set_other; [apply dict_get_set_same|].
    intros ->. specialize (Hcomposite eq_refl). discriminate.
  - apply dict_get_set_same.
Qed.

Section Enhanced.
Variable format_value : json -> string.

Lemma check_resource_shift r w w2 :
  check_resource format_value r w = Some w2 ->
  exists extra, w2 = w ++ extra /\
    forall w', check_resource format_value r w' = Some (w' ++ extra).
Proof.
  unfold check_resource.
  destruct (py_in "resource_type" r) as [b1|]; simpl; [|discriminate].
  destruct (py_in "impact_level" r) as [b2|].
  2:{ destruct (negb b1); simpl; [|discriminate].
      destruct (py_get r "file" (JStr "unknown")); simpl; discriminate. }
  destruct (py_get r "file" (JStr "unknown")) as [f|].
  - destruct b1, b2; simpl; intros H; inversion H; subst.
    + exists []. split; [now rewrite app_nil_r|].
      intros w'. now rewrite app_nil_r.
    + eexists. split; [reflexivity | reflexivity].
    + eexists. split; [reflexivity | reflexivity].
    + eexists. split; [now rewrite <- app_assoc|].
      intros w'. now rewrite <- app_assoc.
  - destruct b1, b2; simpl; intros H; try discriminate.
    inversion H; subst. exists []. split; [now rewrite app_nil_r|].
    intros w'. now rewrite app_nil_r.
Qed.

Lemma check_resources_shift rs : forall w w2,
  check_resources format_value rs w = Some w2 ->
  exists extra, w2 = w ++ extra /\
    forall w', check_resources format_value rs w' = Some (w' ++ extra).
Proof.
  induction rs as [|r rs IH]; simpl; intros w w2 H.
  - inversion H. exists []. split; [now rewrite app_nil_r|].
    intros w'. now rewrite app_nil_r.
  - destruct (check_resource format_value r w) as [w1|] eqn:E; simpl in H;
      [|discriminate].
    apply check_resource_shift in E. destruct E as (x1 & -> & Hx1).
    apply IH in H. destruct H as (x2 & -> & Hx2).
    exists (x1 ++ x2). split; [now rewrite app_assoc|].
    intros w'. rewrite Hx1. simpl. rewrite Hx2. now rewrite app_assoc.
Qed.

(** The validator on an enhanced document, from its result on the input. *)
Lemma validate_enhanced metadata condition_mapping enhanced strict
      ok errors warnings :
  prepare_change_metadata metadata condition_mapping = Some enhanced ->
  validate_change_impact format_value metadata strict
  = Some (ok, errors, warnings) ->
  exists ok' warnings',
    validate_change_impact format_value enhanced strict
    = Some (ok', errors, warnings')
    /\ (forall w, w <> msg_no_conditions ->
                  (In w warnings <-> In w warnings')).
Proof.
  intros Hp Hv.
  assert (Hget : forall k default,
             ~ In k ["cloudformation_conditions"; "metadata_version";
                     "enhanced"; "has_affected_resources"; "has_deployments";
                     "is_valid"] ->
             dict_get_default k default enhanced
             = dict_get_default k default metadata).
  { intros k default Hk. unfold dict_get_default.
    now rewrite (prepare_other_keys _ _ _ k Hp Hk). }
  assert (Hno : forall k,
             k = "affected_resources" \/ k = "deployment_checklist" \/
             k = "changed_files" \/ k = "required_actions" ->
             ~ In k ["cloudformation_conditions"; "metadata_version";
                     "enhanced"; "has_affected_resources"; "has_deployments";
                     "is_valid"]).
  { intros k [ -> | [ -> | [ -> | -> ] ] ] Hin; simpl in Hin;
      repeat (destruct Hin as [Hin|Hin]; [discriminate|]); exact Hin. }
  assert (Hs : check_structure enhanced [] = check_structure metadata []).
  { unfold check_structure, dict_mem.
    rewrite !(prepare_other_keys _ _ _ _ Hp) by (apply Hno; tauto).
    reflexivity. }
  apply validate_inv in Hv. unfold validate_change_impact. rewrite Hs.
  destruct Hv as [(Hne & -> & -> & ->) | (Hnil & Hv)].
  - destruct (check_structure metadata []) as [|e es]; [contradiction|].
    simpl. eexists _, _. split; [reflexivity | tauto].
  - rewrite Hnil. cbn [List.length Nat.eqb negb]. cbv zeta in Hv.
    destruct Hv as (w1 & e1 & rs & Hcov & Hcl & Hrs & Hres & Hcrit & ->).
    rewrite !Hget by (apply Hno; tauto).
    rewrite Hcov, Hcl, Hrs. cbn [bind].
    apply check_resources_shift in Hres. destruct Hres as (extra & -> & Hx).
    rewrite Hx. cbn [bind].
    assert (Hc : check_critical enhanced rs e1 = Some errors).
    { unfold check_critical in *. now rewrite Hget by (apply Hno; tauto). }
    rewrite Hc. cbn [bind]. unfold ret. eexists _, _. split; [reflexivity|].
    intros w Hw. rewrite !in_app_iff.
    assert (Hsame : forall m,
               In w (check_enhanced m
                       (dict_get_default "affected_resources" (JArr [])
                                         metadata) w1)
               <-> In w w1).
    { intros m. destruct (check_enhanced_inv m
                  (dict_get_default "affected_resources" (JArr []) metadata) w1)
        as [-> | ->]; [tauto|].
      rewrite in_app_iff. simpl. split; [|tauto].
      intros [H|[H|[]]]; [assumption | congruence]. }
    rewrite !Hsame. tauto.
Qed.

(** X20.  Enhancing never changes what the validator objects to: if the
    validator returns on a document, it returns on the enhanced document
    with the same errors, and with the same warnings apart from the
    missing-conditions warning. *)
Theorem enhancing_keeps_errors metadata condition_mapping enhanced strict
        ok errors warnings :
  prepare_change_metadata metadata condition_mapping = Some enhanced ->
  validate_change_impact format_value metadata strict
  = Some (ok, errors, warnings) ->
  exists ok' warnings',
    validate_change_impact format_value enhanced strict
    = Some (ok', errors, warnings')
    /\ (forall w, w <> msg_no_conditions ->
                  (In w warnings <-> In w warnings')).
Proof. apply validate_enhanced. Qed.

End Enhanced.

End EnhancerExtras.

(** ** Detector, enhancer and validator in sequence *)

Module FullPipeline.
Import Detector Enhancer Validator.
Import DetectorFacts ValidatorFacts EnhancerFacts PipelineFacts EnhancerExtras.

Section Sequence.
Variable fnmatch : string -> string -> bool.
Variable format_value : json -> string.

(** X21.  The three stages never raise when run in sequence: on the
    detector's document the enhancer returns a document, the validator
    returns on both, and it reports the same errors before and after the
    enhancement. *)
Theorem pipeline_returns
        config_path base_commit head_commit cfg changed condition_mapping
        strict :
  let document :=
    to_document (run_change_detection fnmatch config_path base_commit
                                      head_commit cfg changed) in
  exists enhanced ok errors warnings ok' warnings',
    prepare_change_metadata document condition_mapping = Some enhanced
    /\ validate_change_impact format_value document strict
       = Some (ok, errors, warnings)
    /\ validate_change_impact format_value enhanced strict
       = Some (ok', errors, warnings').
Proof.
  cbv zeta.
  set (md := run_change_detection fnmatch config_path base_commit head_commit
                                  cfg changed).
  destruct (prepare_total (to_document md) condition_mapping
              (map (fun kv : string * bool => (fst kv, JBool (snd kv)))
                   (cm_deployment_checklist md))
              (List.length (cm_affected_resources md))
              eq_refl eq_refl) as [enhanced Hp].
  destruct (validate_document format_value md strict
              (matched_pairs fnmatch cfg changed)
              (run_affected_resources fnmatch _ _ _ _ _))
    as (ok & errors & warnings & Hv & _).
  destruct (validate_enhanced format_value _ _ _ _ _ _ _ Hp Hv)
    as (ok' & warnings' & Hv' & _).
  exists enhanced, ok, errors, warnings, ok', warnings'. auto.
Qed.

End Sequence.

End FullPipeline.

(** ** The further properties on examples *)

Module ExtraScenarios.
Import Detector Enhancer Validator Diff Runner Instances.
Import DiffFacts ValidatorExtras DetectorExtras EnhancerExtras.

(** X2 on a listing of two paths. *)
Lemma changed_files_round_trip_witness :
  get_changed_files (Some (diff_output ["lambda/index.py"; "docs/read me.md"]))
  = ["lambda/index.py"; "docs/read me.md"].
Proof.
  apply (changed_files_round_trip ["lambda/index.py"; "docs/read me.md"]).
  reflexivity.
Defined.

(** X5 on a resource list holding a string. *)
Lemma nondict_resource_raises_witness :
  validate_change_impact format_scalar
    [("affected_resources", JArr [JStr "lambda/index.py"]);
     ("deployment_checklist", JObj [])]
    false
  = None.
Proof.
  apply (nondict_resource_raises format_scalar _ false
           [JStr "lambda/index.py"] (JStr "lambda/index.py")).
  - reflexivity.
  - reflexivity.
  - left. reflexivity.
  - reflexivity.
Defined.

(** X6 on scenario B, from strict to non-strict mode. *)
Lemma strict_changes_verdict_only_witness :
  exists ok',
    validate_change_impact format_scalar unclassified_metadata false
    = Some (ok', [], [msg_no_affected_resources 1])
    /\ (false = false -> false = true -> ok' = true).
Proof.
  apply (strict_changes_verdict_only format_scalar unclassified_metadata
                                     true false false).
  reflexivity.
Defined.

(** X7 on scenario B. *)
Lemma no_resources_no_errors_witness :
  validate_change_impact format_scalar unclassified_metadata true
  = Some (negb true || Nat.eqb (List.length [JStr "README.md"]) 0,
          [],
          if Nat.eqb (List.length [JStr "README.md"]) 0 then []
          else [msg_no_affected_resources (List.length [JStr "README.md"])]).
Proof.
  apply (no_resources_no_errors format_scalar unclassified_metadata true
                                [JStr "README.md"]).
  - reflexivity.
  - reflexivity.
  - reflexivity.
Defined.

(** X12 on the two spellings of one path. *)
Lemma slash_direction_ignored_witness :
  is_excluded fnmatch_posix "docs\guide.md" ["docs/*"]
  = is_excluded fnmatch_posix "docs/guide.md" ["docs/*"]
  /\ match_file_to_mapping fnmatch_posix "docs\guide.md"
                           [("net", network_mapping)]
     = match_file_to_mapping fnmatch_posix "docs/guide.md"
                             [("net", network_mapping)]
  /\ is_excluded fnmatch_posix (normalize_path "docs\guide.md") ["docs/*"]
     = is_excluded fnmatch_posix "docs\guide.md" ["docs/*"].
Proof.
  apply (slash_direction_ignored fnmatch_posix "docs\guide.md" "docs/guide.md").
  reflexivity.
Defined.

(** X13 on an excluded file and a file no mapping matches. *)
Lemma nothing_matched_witness :
  run_change_detection fnmatch_posix "config.yaml" "main" "HEAD" lambda_config
                       ["README.md"; "Makefile"]
  = initial_metadata "config.yaml" "main" "HEAD" lambda_config
                     ["README.md"; "Makefile"].
Proof.
  apply (nothing_matched fnmatch_posix).
  intros file_path [<-|[<-|[]]].
  - left. reflexivity.
  - right. reflexivity.
Defined.

(** X17 on the document of scenario D. *)
Lemma prepare_carries_input_witness :
  exists enhanced,
    prepare_change_metadata application_metadata
                            [("application", "DeployApplication")]
    = Some enhanced
    /\ (forall k,
           In k (keys enhanced) <->
           In k (keys application_metadata) \/
           In k ["cloudformation_conditions"; "metadata_version"; "enhanced";
                 "has_affected_resources"; "has_deployments"; "is_valid"])
    /\ (forall k,
           ~ In k ["cloudformation_conditions"; "metadata_version"; "enhanced";
                   "has_affected_resources"; "has_deployments"; "is_valid"] ->
           dict_get k enhanced = dict_get k application_metadata).
Proof.
  eexists. split; [reflexivity|].
  apply (prepare_carries_input application_metadata
                               [("application", "DeployApplication")]).
  reflexivity.
Defined.

(** X18 on the document of scenario D. *)
Lemma prepare_flags_witness :
  exists enhanced,
    prepare_change_metadata application_metadata
                            [("application", "DeployApplication")]
    = Some enhanced
    /\ dict_get "enhanced" enhanced = Some (JBool true)
    /\ dict_get "metadata_version" enhanced = Some (JStr "2.0")
    /\ exists has_resources has_deployments,
        dict_get "has_affected_resources" enhanced
        = Some (JBool has_resources)
        /\ dict_get "has_deployments" enhanced = Some (JBool has_deployments)
        /\ dict_get "is_valid" enhanced
           = Some (JBool (has_resources && has_deployments))
        /\ (has_resources = true <->
            exists n,
              py_len (dict_get_default "affected_resources" (JArr [])
                                       application_metadata)
              = Some (S n))
        /\ (has_deployments = true <->
            exists items v,
              dict_get_default "deployment_checklist" (JObj [])
                               application_metadata
              = JObj items
              /\ In v (values items) /\ truthy v = true).
Proof.
  eexists. split; [reflexivity|].
  apply (prepare_flags application_metadata
                       [("application", "DeployApplication")]).
  reflexivity.
Defined.

(** X19 on two keys sharing one condition name. *)
Lemma last_key_decides_witness :
  dict_get "Deploy"
    (build_conditions [("network", "Deploy"); ("storage", "Deploy")]
                      ([("network", JBool true)] ++ [("storage", JBool false)]))
  = Some (JBool false).
Proof.
  apply (last_key_decides [("network", "Deploy"); ("storage", "Deploy")]
                          [("network", JBool true)] "storage" (JBool false)
                          "Deploy").
  - reflexivity.
  - discriminate.
  - discriminate.
Defined.

(** X20 on the document of scenario D. *)
Lemma enhancing_keeps_errors_witness :
  exists enhanced,
    prepare_change_metadata application_metadata
                            [("application", "DeployApplication")]
    = Some enhanced
    /\ exists ok' warnings',
        validate_change_impact format_scalar enhanced true
        = Some (ok', [], warnings')
        /\ (forall w, w <> msg_no_conditions ->
                      (In w (@nil string) <-> In w warnings')).
Proof.
  eexists. split; [reflexivity|].
  apply (enhancing_keeps_errors format_scalar application_metadata
                                [("application", "DeployApplication")]
                                _ true true [] []).
  - reflexivity.
  - reflexivity.
Defined.

End ExtraScenarios.
